(** * DataSearchBot (src/bot.py): a shallow embedding and its properties

    The bot relays text queries to one HTTP search API and renders the
    JSON answer as text.  The file follows the source top-down:

    - [PyStr]: Python [str] values as sequences of code points, with
      [str.strip], [str(int)] and the literals of the source;
    - [Json]: what [response.json()] returns, with the dynamic operations
      the formatter applies to it ([dict.get], truthiness, iteration);
    - [Bot]: the methods of [DataSearchBot] over an explicit world
      (bot object, conversation tables, outbox, HTTP calls, log);
    - [Router]: the handler table that [main()] registers, with the
      dispatch rules of the messaging library it is registered with. *)

From Stdlib Require Import ZArith NArith List String Ascii Decimal Lia Bool.
From stdpp Require Import base option list gmap.

Local Open Scope N_scope.

(** ** Python strings *)

Module PyStr.

(** A Python [str] is a sequence of Unicode code points. *)
Definition char : Type := N.
Definition str : Type := list char.

(** Source literals are written as they appear in [bot.py] and decoded
    from the UTF-8 bytes of this file. *)
Fixpoint utf8_decode (bs : list N) : str :=
  match bs with
  | [] => []
  | b :: r =>
      if b <? 0x80 then b :: utf8_decode r
      else if b <? 0xE0 then
        match r with
        | c1 :: r1 =>
            N.lor (N.shiftl (N.land b 0x1F) 6) (N.land c1 0x3F) :: utf8_decode r1
        | _ => []
        end
      else if b <? 0xF0 then
        match r with
        | c1 :: c2 :: r2 =>
            N.lor (N.shiftl (N.land b 0x0F) 12)
              (N.lor (N.shiftl (N.land c1 0x3F) 6) (N.land c2 0x3F))
              :: utf8_decode r2
        | _ => []
        end
      else
        match r with
        | c1 :: c2 :: c3 :: r3 =>
            N.lor (N.shiftl (N.land b 0x07) 18)
              (N.lor (N.shiftl (N.land c1 0x3F) 12)
                 (N.lor (N.shiftl (N.land c2 0x3F) 6) (N.land c3 0x3F)))
              :: utf8_decode r3
        | _ => []
        end
  end.

(** The one escape sequence the source uses, backslash-n. *)
Fixpoint unescape (s : str) : str :=
  match s with
  | 92 :: 110 :: r => 10 :: unescape r
  | c :: r => c :: unescape r
  | [] => []
  end.

Definition u (s : string) : str :=
  unescape (utf8_decode (map N_of_ascii (list_ascii_of_string s))).
Arguments u s%_string.

(** [str.isspace] on one code point: the table of CPython's
    [_PyUnicode_IsWhitespace]. *)
Definition isspace (c : char) : bool :=
  ((0x09 <=? c) && (c <=? 0x0D)) || ((0x1C <=? c) && (c <=? 0x20))
  || (c =? 0x85) || (c =? 0xA0) || (c =? 0x1680)
  || ((0x2000 <=? c) && (c <=? 0x200A))
  || (c =? 0x2028) || (c =? 0x2029) || (c =? 0x202F) || (c =? 0x205F)
  || (c =? 0x3000).

Fixpoint lstrip (s : str) : str :=
  match s with
  | c :: r => if isspace c then lstrip r else s
  | [] => []
  end.

Definition rstrip (s : str) : str := rev (lstrip (rev s)).

(** [s.strip()] *)
Definition strip (s : str) : str := rstrip (lstrip s).

(** [str(n)] for an [int]. *)
Fixpoint str_of_uint (d : Decimal.uint) : str :=
  match d with
  | Nil => []
  | D0 r => 48 :: str_of_uint r
  | D1 r => 49 :: str_of_uint r
  | D2 r => 50 :: str_of_uint r
  | D3 r => 51 :: str_of_uint r
  | D4 r => 52 :: str_of_uint r
  | D5 r => 53 :: str_of_uint r
  | D6 r => 54 :: str_of_uint r
  | D7 r => 55 :: str_of_uint r
  | D8 r => 56 :: str_of_uint r
  | D9 r => 57 :: str_of_uint r
  end.

Definition str_of_int (z : Z) : str :=
  match z with
  | Z0 => u "0"
  | Zpos p => str_of_uint (Pos.to_uint p)
  | Zneg p => u "-" ++ str_of_uint (Pos.to_uint p)
  end.

(** [s * n] *)
Definition str_mul (s : str) (n : nat) : str := concat (replicate n s).

(** [sep.join(parts)] *)
Fixpoint join (sep : str) (parts : list str) : str :=
  match parts with
  | [] => []
  | [p] => p
  | p :: r => p ++ sep ++ join sep r
  end.

(** [bool(s)] *)
Definition nonempty (s : str) : bool :=
  match s with [] => false | _ => true end.

Definition str_eqb (a b : str) : bool := bool_decide (a = b).

(** [s.splitlines()] cut down to the one separator the bot writes. *)
Fixpoint lines_aux (cur : str) (s : str) : list str :=
  match s with
  | [] => [rev cur]
  | c :: r => if c =? 10 then rev cur :: lines_aux [] r else lines_aux (c :: cur) r
  end.

Definition lines (s : str) : list str := lines_aux [] s.

Fixpoint starts_with (p s : str) : bool :=
  match p, s with
  | [], _ => true
  | a :: p', b :: s' => (a =? b) && starts_with p' s'
  | _ :: _, [] => false
  end.

(** [p in s] *)
Fixpoint contains (p s : str) : bool :=
  starts_with p s || match s with [] => false | _ :: r => contains p r end.

End PyStr.
Export PyStr.

(** ** Values of [response.json()] *)

Module Json.

(** A parsed JSON document.  A [dict] keeps its items in insertion order
    (keys are distinct in a Python dict; nothing below relies on it, and
    [dict_lookup] takes the first item of a key).  A [float] is kept as what
    the formatter can observe of it: whether it equals zero, and its
    [repr]. *)
#[warnings="-register-all"]
Inductive json : Type :=
| JNull
| JBool (b : bool)
| JInt (n : Z)
| JFloat (is_zero : bool) (shown : str)
| JStr (s : str)
| JArr (items : list json)
| JObj (items : list (str * json)).

(** [repr] of a [str] depends on the Unicode character database (which
    code points are printable); it is the one operation of the runtime
    taken as given. *)
Class PyRepr := repr_str : str -> str.

(** Raised exceptions: the class name and [str(e)]. *)
Record pyexc : Type := Exc { exc_class : str; exc_msg : str }.

Inductive result (A : Type) : Type :=
| Ok (a : A)
| Raise (e : pyexc).
Arguments Ok {A} a.
Arguments Raise {A} e.

Definition bind {A B} (r : result A) (k : A -> result B) : result B :=
  match r with
  | Ok a => k a
  | Raise e => Raise e
  end.

Notation "'try!' x := r 'in' k" := (bind r (fun x => k))
  (at level 10, x name, r at level 100, k at level 200).

(** [type(v).__name__] *)
Definition type_name (v : json) : str :=
  match v with
  | JNull => u "NoneType"
  | JBool _ => u "bool"
  | JInt _ => u "int"
  | JFloat _ _ => u "float"
  | JStr _ => u "str"
  | JArr _ => u "list"
  | JObj _ => u "dict"
  end.

Definition AttributeError (v : json) (attr : str) : pyexc :=
  Exc (u "AttributeError")
      (u "'" ++ type_name v ++ u "' object has no attribute '" ++ attr ++ u "'").

Definition TypeError_not_iterable (v : json) : pyexc :=
  Exc (u "TypeError") (u "'" ++ type_name v ++ u "' object is not iterable").

Definition TypeError_no_len (v : json) : pyexc :=
  Exc (u "TypeError") (u "object of type '" ++ type_name v ++ u "' has no len()").

Fixpoint dict_lookup (k : str) (items : list (str * json)) : option json :=
  match items with
  | [] => None
  | (k', v) :: r => if str_eqb k k' then Some v else dict_lookup k r
  end.

(** [d.get(k, dflt)]: only a [dict] has the method. *)
Definition py_get (d : json) (k : str) (dflt : json) : result json :=
  match d with
  | JObj items => Ok (default dflt (dict_lookup k items))
  | _ => Raise (AttributeError d (u "get"))
  end.

(** [d.items()] *)
Definition py_items (d : json) : result (list (str * json)) :=
  match d with
  | JObj items => Ok items
  | _ => Raise (AttributeError d (u "items"))
  end.

(** [bool(v)] *)
Definition truthy (v : json) : bool :=
  match v with
  | JNull => false
  | JBool b => b
  | JInt n => negb (Z.eqb n 0)
  | JFloat is_zero _ => negb is_zero
  | JStr s => nonempty s
  | JArr items => match items with [] => false | _ => true end
  | JObj items => match items with [] => false | _ => true end
  end.

(** The values [for r in v] binds [r] to. *)
Definition py_iter (v : json) : result (list json) :=
  match v with
  | JArr items => Ok items
  | JStr s => Ok (map (fun c => JStr [c]) s)
  | JObj items => Ok (map (fun kv => JStr (fst kv)) items)
  | _ => Raise (TypeError_not_iterable v)
  end.

(** [len(v)] *)
Definition py_len (v : json) : result Z :=
  match v with
  | JArr items => Ok (Z.of_nat (length items))
  | JStr s => Ok (Z.of_nat (length s))
  | JObj items => Ok (Z.of_nat (length items))
  | _ => Raise (TypeError_no_len v)
  end.

Section Show.
Context `{PyRepr}.

(** [repr(v)] *)
Fixpoint py_repr (v : json) : str :=
  match v with
  | JNull => u "None"
  | JBool true => u "True"
  | JBool false => u "False"
  | JInt n => str_of_int n
  | JFloat _ shown => shown
  | JStr s => repr_str s
  | JArr items => u "[" ++ join (u ", ") (map py_repr items) ++ u "]"
  | JObj items =>
      u "{"
      ++ join (u ", ")
           (map (fun kv => repr_str (fst kv) ++ u ": " ++ py_repr (snd kv)) items)
      ++ u "}"
  end.

(** [str(v)], which is what an f-string field [{v}] inserts. *)
Definition py_str (v : json) : str :=
  match v with
  | JStr s => s
  | _ => py_repr v
  end.
End Show.

End Json.
Export Json.

(** ** The bot object and its methods *)

Module Bot.

(** *** Module-level constants *)

(** [SEARCH, API_SETUP = range(2)], and the library's [ConversationHandler.END]. *)
Definition SEARCH : Z := 0.
Definition API_SETUP : Z := 1.
Definition END : Z := -1.

(** The process environment, as far as [os.environ.get] reads it. *)
Record environ : Type := Environ {
  env_BOT_TOKEN : option str;
  env_API_URL : option str;
  env_API_KEY : option str
}.

Definition BOT_TOKEN (e : environ) : str :=
  default (u "YOUR_BOT_TOKEN_HERE") (env_BOT_TOKEN e).
Definition API_URL (e : environ) : str :=
  default (u "https://your-universal-api.com/search") (env_API_URL e).
Definition API_KEY (e : environ) : str :=
  default (u "YOUR_API_KEY_HERE") (env_API_KEY e).

(** *** The outside world *)

(** An incoming message: [update.effective_chat.id], the sender,
    [update.message.text], and the command the message starts with, if it
    starts with one.  [CmdOther] is a command that none of the registered
    command handlers accepts. *)
Inductive command : Type :=
| CmdStart | CmdHelp | CmdSearch | CmdSetapi | CmdCancel | CmdOther.

#[global] Instance command_eq_dec : EqDecision command.
Proof. solve_decision. Defined.

Record update : Type := Update {
  chat_id : Z;
  user_id : Z;
  text : str;
  leading_command : option command
}.

Inductive markup : Type := ReplyKeyboardRemove.

(** The arguments of [requests.post]. *)
Record request : Type := Request {
  req_url : str;
  req_json : json;
  req_headers : list (str * str);
  req_timeout : Z
}.

(** What comes back: [status_code], and what [response.json()] does. *)
Record response : Type := Response {
  status_code : Z;
  response_json : result json
}.

(** The HTTP library and the network behind it: given the calls made so
    far and the present one, a response or a raised exception. *)
Definition transport : Type := list request -> request -> result response.

(** Everything the bot does to the outside, in the order it does it. *)
Inductive event : Type :=
| SendMessage (chat : Z) (body : str) (parse_mode : option str)
    (reply_markup : option markup)
| SendChatAction (chat : Z) (action : str)
| HttpPost (r : request)
| LogError (line : str).

(** [self] of [DataSearchBot]. *)
Record DataSearchBot : Type := MkBot {
  api_url : str;
  api_key : str
}.

Definition session : Type := Z * Z.

(** The process state: the one bot object, the conversation table of each
    of the two [ConversationHandler]s, and the events so far. *)
Record world : Type := World {
  bot : DataSearchBot;
  search_table : gmap (Z * Z) Z;
  api_table : gmap (Z * Z) Z;
  events : list event
}.

Definition emit (e : event) (w : world) : world :=
  World (bot w) (search_table w) (api_table w) (events w ++ [e]).

Definition set_bot (b : DataSearchBot) (w : world) : world :=
  World b (search_table w) (api_table w) (events w).

Fixpoint http_calls (es : list event) : list request :=
  match es with
  | [] => []
  | HttpPost r :: es' => r :: http_calls es'
  | _ :: es' => http_calls es'
  end.

Fixpoint replies_to (chat : Z) (es : list event) : list str :=
  match es with
  | [] => []
  | SendMessage c body _ _ :: es' =>
      if Z.eqb c chat then body :: replies_to chat es' else replies_to chat es'
  | _ :: es' => replies_to chat es'
  end.

Fixpoint all_replies (es : list event) : list (Z * str) :=
  match es with
  | [] => []
  | SendMessage c body _ _ :: es' => (c, body) :: all_replies es'
  | _ :: es' => all_replies es'
  end.


(** [update.message.reply_text(body, ...)] *)
Definition reply_text (upd : update) (body : str) (parse_mode : option str)
    (reply_markup : option markup) (w : world) : world :=
  emit (SendMessage (chat_id upd) body parse_mode reply_markup) w.

(** [DataSearchBot()] *)
Definition DataSearchBot_init (e : environ) : DataSearchBot :=
  {| api_url := API_URL e; api_key := API_KEY e |}.

Section Methods.
Context `{PyRepr}.
Variable net : transport.

(** [for x in xs: acc = body(acc, x)], leaving at the first exception. *)
Fixpoint for_each {A S : Type} (body : S -> A -> result S) (xs : list A)
    (acc : S) : result S :=
  match xs with
  | [] => Ok acc
  | x :: xs' => try! acc' := body acc x in for_each body xs' acc'
  end.

(** The body of [for k, val in details.items()]. *)
Definition detail_line (acc : str) (kv : str * json) : result str :=
  Ok (acc ++ u "  - " ++ fst kv ++ u ": " ++ py_str (snd kv) ++ u "\n").

(** The body of [for r in results]. *)
Definition finding_block (acc : str) (r : json) : result str :=
  try! t := py_get r (u "type") (JStr (u "Unknown")) in
  try! v := py_get r (u "value") (JStr (u "N/A")) in
  let acc := acc ++ u "📋 Type: " ++ py_str t ++ u "\n" in
  let acc := acc ++ u "🔎 Value: " ++ py_str v ++ u "\n" in
  try! details := py_get r (u "details") (JObj []) in
  try! acc :=
    (if truthy details
     then try! items := py_items details in for_each detail_line items acc
     else Ok acc) in
  Ok (acc ++ str_mul (u "─") 30 ++ u "\n\n").

(** [format_api_response(self, data, query)] *)
Definition format_api_response (self : DataSearchBot) (data : json)
    (query : str) : result str :=
  try! results := py_get data (u "results") (JArr []) in
  if negb (truthy results) then
    Ok (u "🔍 No results found for: " ++ query)
  else
    let acc := u "🔍 Results for: " ++ query ++ u "\n\n" in
    try! rs := py_iter results in
    try! acc := for_each finding_block rs acc in
    try! n := py_len results in
    Ok (acc ++ u "📊 Found " ++ str_of_int n
            ++ u " results.\n\n🔴 *Credit by Smart Sunny*").

(** The [try] block of [call_universal_api], after [requests.post] was
    called with [req]. *)
Definition api_attempt (self : DataSearchBot) (calls : list request)
    (req : request) (query : str) : result str :=
  try! response := net calls req in
  if Z.eqb (status_code response) 200 then
    try! data := response_json response in
    format_api_response self data query
  else if Z.eqb (status_code response) 401 then
    Ok (u "❌ Invalid API key.")
  else if Z.eqb (status_code response) 402 then
    Ok (u "❌ API quota exceeded.")
  else
    Ok (u "❌ API error: " ++ str_of_int (status_code response)).

Definition api_request (self : DataSearchBot) (query : str) : request :=
  {| req_url := api_url self;
     req_json := JObj [(u "query", JStr query)];
     req_headers :=
       [(u "Authorization", u "Bearer " ++ api_key self);
        (u "Content-Type", u "application/json")];
     req_timeout := 30 |}.

(** The guard [not self.api_key or self.api_key == "YOUR_API_KEY_HERE"]. *)
Definition not_configured (self : DataSearchBot) : bool :=
  negb (nonempty (api_key self))
  || str_eqb (api_key self) (u "YOUR_API_KEY_HERE").

(** [call_universal_api(self, query)] *)
Definition call_universal_api (query : str) (w : world) : world * str :=
  let self := bot w in
  if not_configured self
  then (w, u "❌ API not configured. Use /setapi.")
  else
    let req := api_request self query in
    let w1 := emit (HttpPost req) w in
    match api_attempt self (http_calls (events w)) req query with
    | Ok reply => (w1, reply)
    | Raise e =>
        (emit (LogError (u "API error: " ++ exc_msg e)) w1,
         u "❌ Error contacting API.")
    end.

(** A handler: what it does to the world, and what it returns. *)
Definition callback : Type := update -> world -> world * option Z.

(** [/start] *)
Definition start : callback := fun upd w =>
  let welcome :=
    u "👋 Welcome to *OSINT Bot*\n\n"
    ++ u "You can search leaked data by:\n"
    ++ u "📧 Email / domain\n"
    ++ u "👤 Name / Nickname\n"
    ++ u "📱 Phone\n"
    ++ u "🔑 Password\n"
    ++ u "🚗 Car number / VIN\n"
    ++ u "✈ Telegram / FB / VK / IG account\n"
    ++ u "📍 IP\n\n"
    ++ u "📃 You can also send multiple queries (each on a new line).\n\n"
    ++ u "🔴 *Credit by Smart Sunny*" in
  (reply_text upd welcome (Some (u "Markdown")) None w, None).

(** [/help] *)
Definition help : callback := fun upd w =>
  let help_text :=
    u "🤖 **Bot Commands:**\n\n"
    ++ u "/start - Start bot\n"
    ++ u "/help - Show help\n"
    ++ u "/search - Start new search\n"
    ++ u "/setapi - Configure API key\n"
    ++ u "/cancel - Cancel current operation\n\n"
    ++ u "✅ Example searches:\n"
    ++ u "`example@gmail.com`\n"
    ++ u "`+79002206090`\n"
    ++ u "`127.0.0.1`\n"
    ++ u "`Petrov Maxim`\n"
    ++ u "`O999МУ777`\n"
    ++ u "`123qwe`\n\n"
    ++ u "📃 Mass Search: send multiple queries, one per line." in
  (reply_text upd help_text (Some (u "Markdown")) None w, None).

(** [/search] *)
Definition search : callback := fun upd w =>
  let w := reply_text upd
    (u "🔍 Please enter your query:\n\n"
     ++ u "You can enter email, phone, IP, VIN, username, etc.\n"
     ++ u "👉 Multiple queries? Send them line by line.") None None w in
  (w, Some SEARCH).

(** Handle entered query *)
Definition perform_search : callback := fun upd w =>
  let query := strip (text upd) in
  let w := emit (SendChatAction (chat_id upd) (u "typing")) w in
  let '(w, result) := call_universal_api query w in
  let w := reply_text upd result None None w in
  (w, Some END).

(** Handle normal message (if not in /search flow) *)
Definition handle_message : callback := fun upd w =>
  let query := strip (text upd) in
  let w := emit (SendChatAction (chat_id upd) (u "typing")) w in
  let '(w, result) := call_universal_api query w in
  let w := reply_text upd result None None w in
  (w, None).

(** [/cancel] *)
Definition cancel : callback := fun upd w =>
  let w := reply_text upd (u "❌ Operation cancelled.") None
             (Some ReplyKeyboardRemove) w in
  (w, Some END).

(** [/setapi] *)
Definition setup_api : callback := fun upd w =>
  let w := reply_text upd (u "Please send your API key:") None None w in
  (w, Some API_SETUP).

Definition save_api_key : callback := fun upd w =>
  let w := set_bot (MkBot (api_url (bot w)) (strip (text upd))) w in
  let w := reply_text upd (u "✅ API key updated successfully!") None None w in
  (w, Some END).
End Methods.

End Bot.
Export Bot.

(** ** The handlers [main()] registers, and how updates reach them *)

Module Router.

(** A handler of the messaging library: which updates it accepts, and the
    callback it then runs. *)
Record handler : Type := Handler {
  accepts : update -> bool;
  run : callback
}.

(** [filters.TEXT] and [filters.COMMAND] *)
Definition filters_TEXT (upd : update) : bool := nonempty (text upd).
Definition filters_COMMAND (upd : update) : bool :=
  match leading_command upd with Some _ => true | None => false end.

Definition CommandHandler (c : command) (cb : callback) : handler :=
  {| accepts := fun upd => bool_decide (leading_command upd = Some c);
     run := cb |}.

Definition MessageHandler (f : update -> bool) (cb : callback) : handler :=
  {| accepts := f; run := cb |}.

(** [ConversationHandler(entry_points=..., states=..., fallbacks=...)];
    [allow_reentry] is the library's keyword, [False] unless given. *)
Record ConversationHandler : Type := MkConversation {
  entry_points : list handler;
  states : list (Z * list handler);
  fallbacks : list handler;
  allow_reentry : bool
}.

Definition first_accepting (hs : list handler) (upd : update) : option handler :=
  find (fun h => accepts h upd) hs.

Fixpoint handlers_of_state (sts : list (Z * list handler)) (st : Z) : list handler :=
  match sts with
  | [] => []
  | (st', hs) :: r => if Z.eqb st st' then hs else handlers_of_state r st
  end.

(** The library's [ConversationHandler.check_update]: the handler that
    takes the update, given the state stored for the conversation.  Entry
    points are tried when there is no stored state (or on re-entry); with a
    stored state, the handlers of that state, then the fallbacks. *)
Definition check_update (c : ConversationHandler) (state : option Z)
    (upd : update) : option handler :=
  let entry :=
    match state with
    | None => first_accepting (entry_points c) upd
    | Some _ =>
        if allow_reentry c then first_accepting (entry_points c) upd else None
    end in
  match entry, state with
  | Some h, _ => Some h
  | None, None => None
  | None, Some st =>
      match first_accepting (handlers_of_state (states c) st) upd with
      | Some h => Some h
      | None => first_accepting (fallbacks c) upd
      end
  end.

(** Which of the two conversation tables of the world a
    [ConversationHandler] keeps its states in. *)
Inductive table : Type := SearchTable | ApiTable.

Definition conversations (t : table) (w : world) : gmap (Z * Z) Z :=
  match t with
  | SearchTable => search_table w
  | ApiTable => api_table w
  end.

Definition set_conversations (t : table) (m : gmap (Z * Z) Z) (w : world) : world :=
  match t with
  | SearchTable => World (bot w) m (api_table w) (events w)
  | ApiTable => World (bot w) (search_table w) m (events w)
  end.

(** The conversation key: chat and user. *)
Definition key_of (upd : update) : session := (chat_id upd, user_id upd).

(** What the library does with the value a callback returned: [END]
    forgets the conversation, [None] keeps the state, any other value is
    stored. *)
Definition update_state (t : table) (key : session) (new_state : option Z)
    (w : world) : world :=
  match new_state with
  | None => w
  | Some st =>
      if Z.eqb st END
      then set_conversations t (delete key (conversations t w)) w
      else set_conversations t (<[key := st]> (conversations t w)) w
  end.

Inductive registered : Type :=
| Plain (h : handler)
| Conversation (t : table) (c : ConversationHandler).

(** [Application.process_update] over one handler group: the first
    handler that accepts the update runs, the others are not asked. *)
Fixpoint process (hs : list registered) (upd : update) (w : world) : world :=
  match hs with
  | [] => w
  | Plain h :: r =>
      if accepts h upd then fst (run h upd w) else process r upd w
  | Conversation t c :: r =>
      match check_update c (conversations t w !! key_of upd) upd with
      | Some h =>
          let '(w', new_state) := run h upd w in
          update_state t (key_of upd) new_state w'
      | None => process r upd w
      end
  end.

Section Main.
Context `{PyRepr}.
Variable net : transport.

Definition TEXT_and_not_COMMAND (upd : update) : bool :=
  filters_TEXT upd && negb (filters_COMMAND upd).

(** Conversation handlers *)
Definition search_conv : ConversationHandler :=
  {| entry_points := [CommandHandler CmdSearch search];
     states := [(SEARCH, [MessageHandler TEXT_and_not_COMMAND (perform_search net)])];
     fallbacks := [CommandHandler CmdCancel cancel];
     allow_reentry := false |}.

Definition api_conv : ConversationHandler :=
  {| entry_points := [CommandHandler CmdSetapi setup_api];
     states := [(API_SETUP, [MessageHandler TEXT_and_not_COMMAND save_api_key])];
     fallbacks := [CommandHandler CmdCancel cancel];
     allow_reentry := false |}.

(** Handlers, in the order of the [add_handler] calls. *)
Definition application : list registered :=
  [ Plain (CommandHandler CmdStart start);
    Plain (CommandHandler CmdHelp help);
    Conversation SearchTable search_conv;
    Conversation ApiTable api_conv;
    Plain (MessageHandler TEXT_and_not_COMMAND (handle_message net)) ].

(** One incoming update, and a sequence of them in arrival order. *)
Definition process_update (upd : update) (w : world) : world :=
  process application upd w.

Definition run_polling (upds : list update) (w : world) : world :=
  fold_left (fun w upd => process_update upd w) upds w.
End Main.

(** The world [main()] starts from. *)
Definition boot (e : environ) : world :=
  {| bot := DataSearchBot_init e; search_table := ∅; api_table := ∅; events := [] |}.

(** *** The session states of the specification

    The code stores no session record: what a session is waiting for is
    the pair of its entries in the two conversation tables. *)
Definition awaiting_search (w : world) (s : session) : Prop :=
  search_table w !! s = Some SEARCH.
Definition awaiting_api_key (w : world) (s : session) : Prop :=
  api_table w !! s = Some API_SETUP.
Definition idle (w : world) (s : session) : Prop :=
  search_table w !! s = None /\ api_table w !! s = None.

End Router.
Export Router.

(** ** The vocabulary of the specification

    These definitions follow the words of the specification, not the
    code; the theorems below compare the code with them. *)

Module Spec.

(** "Trimmed of surrounding whitespace": [t] is [s] without a prefix and a
    suffix of whitespace, and neither starts nor ends with whitespace. *)
Definition trimmed (s t : str) : Prop :=
  exists l r,
    s = l ++ t ++ r
    /\ forallb isspace l = true
    /\ forallb isspace r = true
    /\ (forall c t', t = c :: t' -> isspace c = false)
    /\ (forall t' c, t = t' ++ [c] -> isspace c = false).

(** The findings of a response body: its [results] array, the empty array
    when the key is absent. *)
Definition findings (data : json) : option (list json) :=
  match data with
  | JObj items =>
      match dict_lookup (u "results") items with
      | None => Some []
      | Some (JArr rs) => Some rs
      | Some _ => None
      end
  | _ => None
  end.

(** A finding as the data model has it: a mapping whose [details], when
    present, is a mapping too. *)
Definition is_finding (r : json) : bool :=
  match r with
  | JObj items =>
      match dict_lookup (u "details") items with
      | None | Some (JObj _) => true
      | Some d => negb (truthy d)
      end
  | _ => false
  end.

Definition field (r : json) (k : str) (dflt : json) : json :=
  match r with
  | JObj items => default dflt (dict_lookup k items)
  | _ => dflt
  end.

Definition details_of (r : json) : list (str * json) :=
  match field r (u "details") (JObj []) with
  | JObj kvs => kvs
  | _ => []
  end.

Section Layout.
Context `{PyRepr}.

(** The header of a rendered result. *)
Definition header (query : str) : str :=
  u "🔍 Results for: " ++ query ++ u "\n\n".

(** One detail as an indented line. *)
Definition detail (kv : str * json) : str :=
  u "  - " ++ fst kv ++ u ": " ++ py_str (snd kv) ++ u "\n".

(** The divider: thirty box-drawing dashes, then an empty line. *)
Definition divider : str := replicate 30 9472 ++ u "\n\n".

(** The block of one finding, closed by the divider. *)
Definition block (r : json) : str :=
  u "📋 Type: " ++ py_str (field r (u "type") (JStr (u "Unknown"))) ++ u "\n"
  ++ u "🔎 Value: " ++ py_str (field r (u "value") (JStr (u "N/A"))) ++ u "\n"
  ++ concat (map detail (details_of r))
  ++ divider.

(** The summary line with the count, and the credit line after it. *)
Definition summary (n : nat) : str :=
  u "📊 Found " ++ str_of_int (Z.of_nat n) ++ u " results.\n\n"
  ++ u "🔴 *Credit by Smart Sunny*".

Definition rendered (rs : list json) (query : str) : str :=
  header query ++ concat (map block rs) ++ summary (length rs).
End Layout.

(** The tables hold nothing but the states [main()] declares. *)
Definition tables_ok (w : world) : Prop :=
  (forall s st, search_table w !! s = Some st -> st = SEARCH)
  /\ (forall s st, api_table w !! s = Some st -> st = API_SETUP).

End Spec.
Export Spec.

(** ** Sample data

    Concrete sessions, updates, response bodies and transports, on which
    the statements below are evaluated. *)

Module Samples.

(** [repr] as it is on strings of printable characters without quotes or
    backslashes. *)
Definition repr_plain : PyRepr := fun s => u "'" ++ s ++ u "'".

Definition alice : session := (1%Z, 1%Z).
Definition bob : session := (2%Z, 2%Z).

Definition command_text (c : command) : str :=
  match c with
  | CmdStart => u "/start"
  | CmdHelp => u "/help"
  | CmdSearch => u "/search"
  | CmdSetapi => u "/setapi"
  | CmdCancel => u "/cancel"
  | CmdOther => u "/whoami"
  end.

Definition says (s : session) (t : str) : update :=
  {| chat_id := fst s; user_id := snd s; text := t; leading_command := None |}.

Definition sends (s : session) (c : command) : update :=
  {| chat_id := fst s; user_id := snd s; text := command_text c;
     leading_command := Some c |}.

(** The finding of the end-to-end scenario of the specification. *)
Definition leak1 : json :=
  JObj [(u "type", JStr (u "email"));
        (u "value", JStr (u "test@example.com"));
        (u "details", JObj [(u "source", JStr (u "leak1"))])].

Definition one_finding : json := JObj [(u "results", JArr [leak1])].
Definition no_findings : json := JObj [(u "results", JArr [])].
Definition no_results_key : json := JObj [(u "status", JStr (u "ok"))].

(** Transports that answer every call alike. *)
Definition answers (status : Z) (body : result json) : transport :=
  fun _ _ => Ok {| status_code := status; response_json := body |}.

Definition not_json : result json :=
  Raise (Exc (u "JSONDecodeError") (u "Expecting value: line 1 column 1 (char 0)")).

Definition unreachable : transport :=
  fun _ _ => Raise (Exc (u "ConnectionError") (u "Connection refused")).

(** A bot with a usable key, one with the placeholder, one with an empty
    key (an [API_KEY] set to the empty string). *)
Definition with_key (k : str) : world :=
  {| bot := {| api_url := u "https://api.example/search"; api_key := k |};
     search_table := ∅; api_table := ∅; events := [] |}.

Definition configured : world := with_key (u "s3cr3t").
Definition unconfigured : world := boot (Environ None None None).
Definition empty_key : world := boot (Environ None None (Some [])).

(** Response bodies of other shapes: [results] null, [results] a string,
    a list instead of an object, and a list of results with an element
    that is not a mapping. *)
Definition null_results : json := JObj [(u "results", JNull)].
Definition text_results : json := JObj [(u "results", JStr (u "none"))].
Definition bare_list : json := JArr [leak1].
Definition bad_finding : json := JObj [(u "results", JArr [leak1; JInt 7])].

(** Worlds reached from [configured]: the first session has a search
    pending, a key entry pending, or both. *)
Definition searching : world :=
  run_polling (H := repr_plain) unreachable [sends alice CmdSearch] configured.
Definition setting_key : world :=
  run_polling (H := repr_plain) unreachable [sends alice CmdSetapi] configured.
Definition searching_and_setting_key : world :=
  run_polling (H := repr_plain) unreachable
    [sends alice CmdSearch; sends alice CmdSetapi] configured.

End Samples.
Export Samples.

(** * Properties *)

Arguments u : simpl never.

(** ** [strip] *)

Lemma lstrip_split (s : str) :
  exists l, s = l ++ lstrip s /\ forallb isspace l = true.
Proof.
  induction s as [|c s IH]; simpl.
  - exists []. split; reflexivity.
  - destruct (isspace c) eqn:Hc.
    + destruct IH as (l & Hs & Hl). exists (c :: l). simpl.
      rewrite Hc, Hl. split; [congruence | reflexivity].
    + exists []. split; reflexivity.
Qed.

Lemma lstrip_head (s : str) (c : char) (t : str) :
  lstrip s = c :: t -> isspace c = false.
Proof.
  induction s as [|a s IH]; simpl; [discriminate|].
  destruct (isspace a) eqn:Ha; [exact IH|].
  intros [= <- _]. exact Ha.
Qed.

Lemma forallb_isspace_rev (l : str) :
  forallb isspace l = true -> forallb isspace (rev l) = true.
Proof.
  rewrite !forallb_forall. intros Hl x Hx. apply Hl, in_rev, Hx.
Qed.

Lemma rstrip_split (s : str) :
  exists r, s = rstrip s ++ r /\ forallb isspace r = true.
Proof.
  destruct (lstrip_split (rev s)) as (l & Hs & Hl).
  exists (rev l). split; [|apply forallb_isspace_rev, Hl].
  unfold rstrip. rewrite <- rev_app_distr, <- Hs. symmetry. apply rev_involutive.
Qed.

Lemma rstrip_last (s t : str) (c : char) :
  rstrip s = t ++ [c] -> isspace c = false.
Proof.
  unfold rstrip. intros Hr.
  apply (lstrip_head (rev s) c (rev t)).
  rewrite <- (rev_involutive (lstrip (rev s))), Hr, rev_app_distr. reflexivity.
Qed.

(** [strip] removes whitespace from both ends, and nothing else. *)
Lemma strip_trimmed (s : str) : trimmed s (strip s).
Proof.
  destruct (lstrip_split s) as (l & Hs & Hl).
  destruct (rstrip_split (lstrip s)) as (r & Hm & Hr).
  exists l, r. unfold strip. repeat split; try assumption.
  - rewrite <- Hm. exact Hs.
  - intros c t' Ht. rewrite Ht in Hm. simpl in Hm.
    exact (lstrip_head s c _ Hm).
  - intros t' c Ht. exact (rstrip_last _ _ _ Ht).
Qed.

(** ** The formatter *)

Section FormatterFacts.
Context `{PyRepr}.

Lemma for_each_detail_line (items : list (str * json)) (acc : str) :
  for_each detail_line items acc = Ok (acc ++ concat (map detail items)).
Proof.
  revert acc. induction items as [|kv items IH]; intros acc; cbn.
  - rewrite app_nil_r. reflexivity.
  - rewrite IH. unfold detail. rewrite <- !app_assoc. reflexivity.
Qed.

Lemma finding_block_ok (acc : str) (r : json) :
  is_finding r = true -> finding_block acc r = Ok (acc ++ block r).
Proof.
  destruct r as [| | | | |?|items]; try discriminate.
  unfold is_finding, finding_block, block, details_of, divider, field.
  cbn [py_get bind].
  change (str_mul (u "─") 30) with (replicate 30 9472 : str).
  destruct (dict_lookup (u "details") items) as [d|]; cbn [default from_option id]; intros Hd.
  - destruct (truthy d) eqn:Ht.
    + destruct d; try discriminate Hd.
      cbn [py_items bind]. rewrite for_each_detail_line. cbn [bind].
      rewrite <- !app_assoc. reflexivity.
    + assert (Hnil : match d with JObj kvs => kvs | _ => [] end = []).
      { destruct d as [| | | | | |[|kv kvs]]; try reflexivity. discriminate Ht. }
      rewrite Hnil. cbn [bind map concat]. rewrite <- !app_assoc. reflexivity.
  - cbn [truthy bind map concat]. rewrite <- !app_assoc. reflexivity.
Qed.

Lemma for_each_finding_block (rs : list json) (acc : str) :
  forallb is_finding rs = true ->
  for_each finding_block rs acc = Ok (acc ++ concat (map block rs)).
Proof.
  revert acc. induction rs as [|r rs IH]; intros acc; cbn.
  - intros _. rewrite app_nil_r. reflexivity.
  - intros [Hr Hrs]%andb_true_iff.
    rewrite (finding_block_ok _ _ Hr). cbn.
    rewrite (IH _ Hrs), <- !app_assoc. reflexivity.
Qed.

(** What the [results] lookup of the formatter yields on a body with
    known findings. *)
Lemma py_get_results (data : json) (rs : list json) :
  findings data = Some rs ->
  py_get data (u "results") (JArr []) = Ok (JArr rs).
Proof.
  destruct data as [| | | | | |items]; cbn; try discriminate.
  destruct (dict_lookup (u "results") items) as [[]|]; cbn; congruence.
Qed.
End FormatterFacts.

(** C4 (as amended).  On a body with zero findings the formatter returns
    exactly the magnifying-glass sign, a space, and
    "No results found for: " followed by the query. *)
Theorem format_no_findings `{PyRepr} (self : DataSearchBot) (data : json)
    (query : str) :
  findings data = Some [] ->
  format_api_response self data query
  = Ok (u "🔍 No results found for: " ++ query).
Proof.
  intros Hf. unfold format_api_response.
  rewrite (py_get_results _ _ Hf). reflexivity.
Qed.

Lemma format_no_findings_witness :
  findings no_findings = Some []
  /\ format_api_response (H := repr_plain) (bot configured) no_findings (u "q")
     = Ok (u "🔍 No results found for: " ++ u "q").
Proof.
  split; [reflexivity|].
  apply (format_no_findings (H := repr_plain)). reflexivity.
Defined.

(** C4, as stated, fails: for the query "q" the formatter returns
    "🔍 No results found for: q", which is not the string
    "no results found for: q". *)
Lemma format_no_findings_not_verbatim :
  findings no_findings = Some []
  /\ (forall (R : PyRepr) (self : DataSearchBot),
        format_api_response self no_findings (u "q")
        = Ok (u "🔍 No results found for: q"))
  /\ u "🔍 No results found for: q" <> u "no results found for: q".
Proof.
  split; [reflexivity|]. split.
  - intros R self. vm_compute. reflexivity.
  - vm_compute. discriminate.
Qed.

(** C6 (as amended).  On a body with at least one finding the formatter
    returns the header "🔍 Results for: q" and an empty line; then, for each
    finding in order, its block: a "📋 Type: " line, a "🔎 Value: " line
    (with "Unknown" and "N/A" for a missing field), one line "  - key: value"
    per detail, a line of thirty dashes and an empty line; then the line
    "📊 Found n results.", an empty line, and the credit line
    "🔴 *Credit by Smart Sunny*", with which the text ends. *)
Theorem format_findings `{PyRepr} (self : DataSearchBot) (data : json)
    (query : str) (rs : list json) :
  findings data = Some rs ->
  rs <> [] ->
  forallb is_finding rs = true ->
  format_api_response self data query = Ok (rendered rs query).
Proof.
  intros Hf Hne Hrs. unfold format_api_response, rendered, header, summary.
  rewrite (py_get_results _ _ Hf).
  destruct rs as [|r rs]; [congruence|].
  cbn [bind truthy negb py_iter py_len].
  rewrite (for_each_finding_block _ _ Hrs). cbn [bind].
  rewrite <- !app_assoc. reflexivity.
Qed.

Lemma format_findings_witness :
  findings one_finding = Some [leak1]
  /\ [leak1] <> []
  /\ forallb is_finding [leak1] = true
  /\ format_api_response (H := repr_plain) (bot configured) one_finding (u "q")
     = Ok (rendered (H := repr_plain) [leak1] (u "q")).
Proof.
  assert (Hne : [leak1] <> []) by discriminate.
  split; [reflexivity|]. split; [exact Hne|]. split; [reflexivity|].
  apply (format_findings (H := repr_plain)); [reflexivity | exact Hne | reflexivity].
Defined.

(** C6, as stated, fails: the first line of the text is
    "🔍 Results for: q", not "results for: q", and the text does not end with
    the summary line: its last line is the credit line, which does not state
    the count. *)
Lemma format_findings_ends_with_credit :
  (forall (R : PyRepr) (self : DataSearchBot),
      exists out,
        format_api_response self one_finding (u "q") = Ok out
        /\ head (lines out) = Some (u "🔍 Results for: q")
        /\ last (lines out) = Some (u "🔴 *Credit by Smart Sunny*"))
  /\ u "🔍 Results for: q" <> u "results for: q"
  /\ contains (u "1") (u "🔴 *Credit by Smart Sunny*") = false.
Proof.
  split; [|split].
  - intros R self. eexists. split; [vm_compute; reflexivity|].
    split; vm_compute; reflexivity.
  - vm_compute. discriminate.
  - vm_compute. reflexivity.
Qed.

(** ** The API call *)

Section LookupFacts.
Context `{PyRepr}.
Variable net : transport.

Lemma all_replies_app (es1 es2 : list event) :
  all_replies (es1 ++ es2) = all_replies es1 ++ all_replies es2.
Proof.
  induction es1 as [|e es1 IH]; [reflexivity|].
  destruct e; cbn [app all_replies]; rewrite IH; reflexivity.
Qed.

Lemma http_calls_app (es1 es2 : list event) :
  http_calls (es1 ++ es2) = http_calls es1 ++ http_calls es2.
Proof.
  induction es1 as [|e es1 IH]; [reflexivity|].
  destruct e; cbn [app http_calls]; rewrite IH; reflexivity.
Qed.

(** The call leaves the bot object and the tables alone, and adds to the
    events at most one HTTP call and one log line: no message is sent. *)
Lemma call_universal_api_frame (query : str) (w : world) :
  let w' := fst (call_universal_api net query w) in
  bot w' = bot w
  /\ search_table w' = search_table w
  /\ api_table w' = api_table w
  /\ exists es, events w' = events w ++ es /\ all_replies es = [].
Proof.
  unfold call_universal_api.
  destruct (not_configured (bot w)).
  - cbn. repeat split. exists []. rewrite app_nil_r. split; reflexivity.
  - destruct (api_attempt _ _ _ _ _); cbn; repeat split.
    + eexists. split; reflexivity.
    + eexists. rewrite <- app_assoc. split; reflexivity.
Qed.

(** Both search handlers answer with exactly one message, to the chat
    the update came from: the text the call returned. *)
Lemma perform_search_replies_once (upd : update) (w : world) :
  all_replies (events (fst (perform_search net upd w)))
  = all_replies (events w)
    ++ [(chat_id upd,
         snd (call_universal_api net (strip (text upd))
                (emit (SendChatAction (chat_id upd) (u "typing")) w)))].
Proof.
  unfold perform_search.
  set (w1 := emit (SendChatAction (chat_id upd) (u "typing")) w).
  destruct (call_universal_api_frame (strip (text upd)) w1)
    as (_ & _ & _ & es & Hes & Hnone).
  destruct (call_universal_api net (strip (text upd)) w1) as [w2 reply].
  cbn [fst snd] in *. unfold reply_text, emit. cbn [events].
  rewrite Hes. subst w1. unfold emit. cbn [events].
  rewrite !all_replies_app, Hnone. cbn. rewrite !app_nil_r. reflexivity.
Qed.

Lemma handle_message_replies_once (upd : update) (w : world) :
  all_replies (events (fst (handle_message net upd w)))
  = all_replies (events w)
    ++ [(chat_id upd,
         snd (call_universal_api net (strip (text upd))
                (emit (SendChatAction (chat_id upd) (u "typing")) w)))].
Proof.
  unfold handle_message.
  set (w1 := emit (SendChatAction (chat_id upd) (u "typing")) w).
  destruct (call_universal_api_frame (strip (text upd)) w1)
    as (_ & _ & _ & es & Hes & Hnone).
  destruct (call_universal_api net (strip (text upd)) w1) as [w2 reply].
  cbn [fst snd] in *. unfold reply_text, emit. cbn [events].
  rewrite Hes. subst w1. unfold emit. cbn [events].
  rewrite !all_replies_app, Hnone. cbn. rewrite !app_nil_r. reflexivity.
Qed.
End LookupFacts.

(** C3.  With the placeholder as key, the call returns the not-configured
    reply and changes nothing in the world: no HTTP call is made, whatever
    the query, and whatever the transport would have answered. *)
Theorem lookup_placeholder_key `{PyRepr} (net : transport) (query : str)
    (w : world) :
  api_key (bot w) = u "YOUR_API_KEY_HERE" ->
  call_universal_api net query w = (w, u "❌ API not configured. Use /setapi.")
  /\ http_calls (events (fst (call_universal_api net query w)))
     = http_calls (events w)
  /\ forall net' : transport,
       call_universal_api net' query w = call_universal_api net query w.
Proof.
  intros Hkey.
  assert (Hguard : not_configured (bot w) = true).
  { unfold not_configured, str_eqb. rewrite Hkey.
    rewrite bool_decide_eq_true_2 by reflexivity. apply orb_true_r. }
  unfold call_universal_api. rewrite Hguard. repeat split.
Qed.

Lemma lookup_placeholder_key_witness :
  api_key (bot unconfigured) = u "YOUR_API_KEY_HERE"
  /\ call_universal_api (H := repr_plain) (answers 200 (Ok one_finding))
       (u "test@example.com") unconfigured
     = (unconfigured, u "❌ API not configured. Use /setapi.").
Proof.
  split; [reflexivity|].
  apply (lookup_placeholder_key (H := repr_plain)). reflexivity.
Defined.

(** C2 (as amended).  With a key that is neither empty nor the placeholder,
    the call makes one HTTP request and maps its outcome: status 401 to the
    invalid-key reply, 402 to the quota reply, any other status but 200 to
    "❌ API error: " followed by the status in decimal; an exception of the
    transport, or of parsing the body of a 200 response, to the generic
    contact-error reply, with the detail on the log only.  Either search
    handler then sends that reply, and nothing else, to the asking chat. *)
Theorem lookup_error_replies `{PyRepr} (net : transport) (query : str)
    (w : world) :
  not_configured (bot w) = false ->
  let req := api_request (bot w) query in
  let outcome := net (http_calls (events w)) req in
  let sent := emit (HttpPost req) w in
  let failed := fun e : pyexc =>
    (emit (LogError (u "API error: " ++ exc_msg e)) sent,
     u "❌ Error contacting API.") in
  (forall r, outcome = Ok r -> status_code r = 401%Z ->
     call_universal_api net query w = (sent, u "❌ Invalid API key."))
  /\ (forall r, outcome = Ok r -> status_code r = 402%Z ->
        call_universal_api net query w = (sent, u "❌ API quota exceeded."))
  /\ (forall r, outcome = Ok r ->
        status_code r <> 200%Z -> status_code r <> 401%Z ->
        status_code r <> 402%Z ->
        call_universal_api net query w
        = (sent, u "❌ API error: " ++ str_of_int (status_code r)))
  /\ (forall e, outcome = Raise e -> call_universal_api net query w = failed e)
  /\ (forall r e, outcome = Ok r -> status_code r = 200%Z ->
        response_json r = Raise e ->
        call_universal_api net query w = failed e)
  /\ (forall upd,
        let asked := emit (SendChatAction (chat_id upd) (u "typing")) w in
        let reply := snd (call_universal_api net (strip (text upd)) asked) in
        all_replies (events (fst (perform_search net upd w)))
        = all_replies (events w) ++ [(chat_id upd, reply)]
        /\ all_replies (events (fst (handle_message net upd w)))
           = all_replies (events w) ++ [(chat_id upd, reply)]).
Proof.
  intros Hcfg req outcome sent failed.
  unfold call_universal_api, api_attempt. rewrite Hcfg.
  fold req. fold outcome. fold sent.
  repeat split.
  - intros r -> Hs. cbn [bind]. rewrite Hs. reflexivity.
  - intros r -> Hs. cbn [bind]. rewrite Hs. reflexivity.
  - intros r -> H200 H401 H402. cbn [bind].
    rewrite (proj2 (Z.eqb_neq _ _) H200), (proj2 (Z.eqb_neq _ _) H401),
      (proj2 (Z.eqb_neq _ _) H402). reflexivity.
  - intros e ->. reflexivity.
  - intros r e -> Hs He. cbn [bind]. rewrite Hs, He. reflexivity.
  - apply perform_search_replies_once.
  - apply handle_message_replies_once.
Qed.

Lemma lookup_error_replies_witness :
  not_configured (bot configured) = false
  /\ call_universal_api (H := repr_plain) (answers 401 not_json) (u "q") configured
     = (emit (HttpPost (api_request (bot configured) (u "q"))) configured,
        u "❌ Invalid API key.").
Proof.
  split; [reflexivity|].
  refine (proj1 (lookup_error_replies (H := repr_plain) (answers 401 not_json)
                   (u "q") configured _) _ _ _); reflexivity.
Defined.

(** C2, as stated, fails: the empty key is not the placeholder, yet with
    it the call makes no request and answers "not configured", also when
    the transport would have answered 401. *)
Lemma lookup_empty_key_not_configured :
  api_key (bot empty_key) <> u "YOUR_API_KEY_HERE"
  /\ (forall R : PyRepr,
        call_universal_api (answers 401 not_json) (u "q") empty_key
        = (empty_key, u "❌ API not configured. Use /setapi."))
  /\ u "❌ API not configured. Use /setapi." <> u "❌ Invalid API key.".
Proof.
  split; [vm_compute; discriminate|]. split.
  - intros R. reflexivity.
  - vm_compute. discriminate.
Qed.

(** C7.  When the transport answers 200 with a JSON object that has no
    [results] key, the body counts as one with zero findings: the call
    returns the no-results text for the query, as it does for a body whose
    [results] is the empty array. *)
Theorem lookup_missing_results `{PyRepr} (net : transport) (query : str)
    (w : world) (r : response) (items : list (str * json)) :
  not_configured (bot w) = false ->
  net (http_calls (events w)) (api_request (bot w) query) = Ok r ->
  status_code r = 200%Z ->
  response_json r = Ok (JObj items) ->
  dict_lookup (u "results") items = None ->
  findings (JObj items) = Some []
  /\ call_universal_api net query w
     = (emit (HttpPost (api_request (bot w) query)) w,
        u "🔍 No results found for: " ++ query)
  /\ format_api_response (bot w) (JObj items) query
     = format_api_response (bot w) (JObj ((u "results", JArr []) :: items)) query.
Proof.
  intros Hcfg Hnet Hs Hbody Hnone.
  assert (Hf : findings (JObj items) = Some []).
  { unfold findings. rewrite Hnone. reflexivity. }
  assert (Hempty : forall d, findings d = Some [] ->
            format_api_response (bot w) d query
            = Ok (u "🔍 No results found for: " ++ query)).
  { intros d Hd. unfold format_api_response.
    rewrite (py_get_results _ _ Hd). reflexivity. }
  split; [exact Hf|]. split.
  - unfold call_universal_api, api_attempt. rewrite Hcfg. cbv zeta.
    rewrite Hnet. cbn [bind]. rewrite Hs, Hbody. cbn [bind Z.eqb Pos.eqb].
    rewrite (Hempty _ Hf). reflexivity.
  - rewrite (Hempty _ Hf). symmetry. apply Hempty. reflexivity.
Qed.

Lemma lookup_missing_results_witness :
  not_configured (bot configured) = false
  /\ dict_lookup (u "results") [(u "status", JStr (u "ok"))] = None
  /\ call_universal_api (H := repr_plain) (answers 200 (Ok no_results_key))
       (u "q") configured
     = (emit (HttpPost (api_request (bot configured) (u "q"))) configured,
        u "🔍 No results found for: " ++ u "q").
Proof.
  split; [reflexivity|]. split; [reflexivity|].
  refine (proj1 (proj2 (lookup_missing_results (H := repr_plain)
                          (answers 200 (Ok no_results_key)) (u "q") configured
                          {| status_code := 200; response_json := Ok no_results_key |}
                          [(u "status", JStr (u "ok"))] _ _ _ _ _))); reflexivity.
Defined.

(** ** The formatter on other bodies *)

Section FormatterEdges.
Context `{PyRepr}.

Lemma finding_block_raises (acc : str) (r : json) :
  is_finding r = false ->
  exists e, finding_block acc r = Raise e /\ exc_class e = u "AttributeError".
Proof.
  intros Hr. destruct r as [| | | | | |items];
    try (eexists; split; reflexivity).
  unfold is_finding in Hr. unfold finding_block. cbn [py_get bind].
  destruct (dict_lookup (u "details") items) as [d|]; [|discriminate].
  cbn [default from_option id].
  destruct d; try discriminate Hr; cbn [negb] in Hr;
    apply negb_false_iff in Hr; rewrite Hr; cbn [py_items bind];
    eexists; split; reflexivity.
Qed.

Lemma for_each_finding_block_raises (rs : list json) (acc : str) :
  forallb is_finding rs = false ->
  exists e, for_each finding_block rs acc = Raise e
            /\ exc_class e = u "AttributeError".
Proof.
  revert acc. induction rs as [|r rs IH]; intros acc; cbn [forallb for_each].
  - discriminate.
  - destruct (is_finding r) eqn:Hr; cbn [andb].
    + intros Hrs. rewrite (finding_block_ok _ _ Hr). cbn [bind]. apply IH, Hrs.
    + intros _. destruct (finding_block_raises acc r Hr) as (e & -> & He).
      exists e. split; [reflexivity | exact He].
Qed.
End FormatterEdges.

(** X1.  A body whose [results] is present but falsy (null, false, zero,
    the empty string, an empty object or array) is a body with no results:
    the formatter returns the no-results text for the query. *)
Theorem format_falsy_results `{PyRepr} (self : DataSearchBot)
    (items : list (str * json)) (v : json) (query : str) :
  dict_lookup (u "results") items = Some v ->
  truthy v = false ->
  format_api_response self (JObj items) query
  = Ok (u "🔍 No results found for: " ++ query).
Proof.
  intros Hv Hf. unfold format_api_response. cbn [py_get bind].
  rewrite Hv. cbn [default from_option id]. rewrite Hf. reflexivity.
Qed.

Lemma format_falsy_results_witness :
  dict_lookup (u "results") [(u "results", JNull)] = Some JNull
  /\ truthy JNull = false
  /\ format_api_response (H := repr_plain) (bot configured) null_results (u "q")
     = Ok (u "🔍 No results found for: " ++ u "q").
Proof.
  split; [reflexivity|]. split; [reflexivity|].
  apply (format_falsy_results (H := repr_plain) _ _ JNull); reflexivity.
Defined.

(** X2.  A [results] that is truthy but not a list is never rendered: a
    number or [true] raises [TypeError] (not iterable); a non-empty string or
    object is iterated, and its first element, a string, has no [get], which
    raises [AttributeError]. *)
Theorem format_results_not_a_list `{PyRepr} (self : DataSearchBot)
    (items : list (str * json)) (v : json) (query : str) :
  dict_lookup (u "results") items = Some v ->
  truthy v = true ->
  (forall rs, v <> JArr rs) ->
  format_api_response self (JObj items) query
  = Raise (match v with
           | JStr _ | JObj _ => AttributeError (JStr []) (u "get")
           | _ => TypeError_not_iterable v
           end).
Proof.
  intros Hv Ht Hna. unfold format_api_response. cbn [py_get bind].
  rewrite Hv. cbn [default from_option id]. rewrite Ht. cbn [negb].
  destruct v as [| | | |s|rs|kvs]; try reflexivity.
  - destruct s as [|c s]; [discriminate Ht | reflexivity].
  - destruct (Hna rs eq_refl).
  - destruct kvs as [|kv kvs]; [discriminate Ht | reflexivity].
Qed.

Lemma format_results_not_a_list_witness :
  dict_lookup (u "results") [(u "results", JStr (u "none"))] = Some (JStr (u "none"))
  /\ truthy (JStr (u "none")) = true
  /\ (forall rs, JStr (u "none") <> JArr rs)
  /\ format_api_response (H := repr_plain) (bot configured) text_results (u "q")
     = Raise (AttributeError (JStr []) (u "get")).
Proof.
  assert (Hna : forall rs, JStr (u "none") <> JArr rs) by discriminate.
  split; [reflexivity|]. split; [reflexivity|]. split; [exact Hna|].
  exact (format_results_not_a_list (H := repr_plain) (bot configured)
           [(u "results", JStr (u "none"))] (JStr (u "none")) (u "q")
           eq_refl eq_refl Hna).
Defined.

(** X3.  On a body whose [results] is a list (or absent), the formatter
    returns a text exactly when every element is a mapping whose [details]
    is a mapping or falsy; otherwise it raises [AttributeError], and no
    partial text is returned. *)
Theorem format_ok_iff_findings `{PyRepr} (self : DataSearchBot) (data : json)
    (query : str) (rs : list json) :
  findings data = Some rs ->
  match format_api_response self data query with
  | Ok _ => forallb is_finding rs = true
  | Raise e => forallb is_finding rs = false /\ exc_class e = u "AttributeError"
  end.
Proof.
  intros Hf. unfold format_api_response.
  rewrite (py_get_results _ _ Hf).
  destruct rs as [|r rs]; [reflexivity|].
  cbn [bind truthy negb py_iter py_len].
  destruct (forallb is_finding (r :: rs)) eqn:Hall.
  - rewrite (for_each_finding_block _ _ Hall). reflexivity.
  - destruct (for_each_finding_block_raises _ (u "🔍 Results for: " ++ query ++ u "\n\n") Hall)
      as (e & -> & He).
    split; [reflexivity | exact He].
Qed.

Lemma format_ok_iff_findings_witness :
  findings bad_finding = Some [leak1; JInt 7]
  /\ match format_api_response (H := repr_plain) (bot configured) bad_finding (u "q") with
     | Ok _ => forallb is_finding [leak1; JInt 7] = true
     | Raise e =>
         forallb is_finding [leak1; JInt 7] = false
         /\ exc_class e = u "AttributeError"
     end.
Proof.
  split; [reflexivity|].
  apply (format_ok_iff_findings (H := repr_plain)). reflexivity.
Defined.

(** ** The API call, further *)

Section LookupEdges.
Context `{PyRepr}.
Variable net : transport.




End LookupEdges.

Lemma summary_literal :
  u " results.\n\n🔴 *Credit by Smart Sunny*"
  = u " results.\n\n" ++ u "🔴 *Credit by Smart Sunny*".
Proof. vm_compute. reflexivity. Qed.

Lemma format_api_response_rendered `{PyRepr} (self : DataSearchBot)
    (data : json) (query : str) (rs : list json) :
  findings data = Some rs ->
  rs <> [] ->
  forallb is_finding rs = true ->
  format_api_response self data query = Ok (rendered rs query).
Proof.
  intros Hf Hne Hrs. unfold format_api_response, rendered, header, summary.
  rewrite (py_get_results _ _ Hf).
  destruct rs as [|r rs]; [congruence|].
  cbn [bind truthy negb py_iter py_len].
  rewrite (for_each_finding_block _ _ Hrs). cbn [bind].
  rewrite summary_literal, <- !app_assoc. reflexivity.
Qed.

(** X4.  A lookup sends exactly one HTTP request when the key is usable,
    whatever the outcome (there is no retry), and none otherwise; the request
    is the one built from the bot's URL and key and the query. *)
Theorem lookup_one_request `{PyRepr} (net : transport) (query : str) (w : world) :
  http_calls (events (fst (call_universal_api net query w)))
  = http_calls (events w)
    ++ (if not_configured (bot w) then [] else [api_request (bot w) query]).
Proof.
  unfold call_universal_api. destruct (not_configured (bot w)).
  - cbn [fst]. symmetry. apply app_nil_r.
  - destruct (api_attempt _ _ _ _ _); cbn [fst emit events];
      rewrite ?http_calls_app; cbn [http_calls]; rewrite ?app_nil_r; reflexivity.
Qed.


(** X6.  End to end: with a usable key, when the transport answers 200
    with a body that has at least one finding, all well-formed, the lookup
    returns the rendered text of the findings, after one request and without
    a log line. *)
Theorem lookup_renders_findings `{PyRepr} (net : transport) (query : str)
    (w : world) (r : response) (data : json) (rs : list json) :
  not_configured (bot w) = false ->
  net (http_calls (events w)) (api_request (bot w) query) = Ok r ->
  status_code r = 200%Z ->
  response_json r = Ok data ->
  findings data = Some rs ->
  rs <> [] ->
  forallb is_finding rs = true ->
  call_universal_api net query w
  = (emit (HttpPost (api_request (bot w) query)) w, rendered rs query).
Proof.
  intros Hcfg Hnet Hs Hbody Hf Hne Hrs.
  unfold call_universal_api, api_attempt. rewrite Hcfg. cbv zeta.
  rewrite Hnet. cbn [bind]. rewrite Hs, Hbody. cbn [bind Z.eqb Pos.eqb].
  rewrite (format_api_response_rendered _ _ _ _ Hf Hne Hrs). reflexivity.
Qed.

Lemma lookup_renders_findings_witness :
  not_configured (bot configured) = false
  /\ findings one_finding = Some [leak1]
  /\ forallb is_finding [leak1] = true
  /\ call_universal_api (H := repr_plain) (answers 200 (Ok one_finding))
       (u "test@example.com") configured
     = (emit (HttpPost (api_request (bot configured) (u "test@example.com"))) configured,
        rendered (H := repr_plain) [leak1] (u "test@example.com")).
Proof.
  assert (Hne : [leak1] <> []) by discriminate.
  split; [reflexivity|]. split; [reflexivity|]. split; [reflexivity|].
  exact (lookup_renders_findings (H := repr_plain) (answers 200 (Ok one_finding))
           (u "test@example.com") configured
           {| status_code := 200; response_json := Ok one_finding |}
           one_finding [leak1] eq_refl eq_refl eq_refl eq_refl eq_refl Hne eq_refl).
Defined.

(** X7.  When the transport answers 200 with JSON that is not an object
    (a list, a string, a number, null), the lookup returns the generic error
    reply and logs that a value of that type has no attribute [get]. *)
Theorem lookup_body_not_object `{PyRepr} (net : transport) (query : str)
    (w : world) (r : response) (data : json) :
  not_configured (bot w) = false ->
  net (http_calls (events w)) (api_request (bot w) query) = Ok r ->
  status_code r = 200%Z ->
  response_json r = Ok data ->
  (forall items, data <> JObj items) ->
  call_universal_api net query w
  = (emit (LogError (u "API error: '" ++ type_name data
                     ++ u "' object has no attribute 'get'"))
       (emit (HttpPost (api_request (bot w) query)) w),
     u "❌ Error contacting API.").
Proof.
  intros Hcfg Hnet Hs Hbody Hno.
  unfold call_universal_api, api_attempt. rewrite Hcfg. cbv zeta.
  rewrite Hnet. cbn [bind]. rewrite Hs, Hbody. cbn [bind Z.eqb Pos.eqb].
  unfold format_api_response.
  destruct data as [| | | | | |items]; try reflexivity.
  destruct (Hno items eq_refl).
Qed.

Lemma lookup_body_not_object_witness :
  not_configured (bot configured) = false
  /\ (forall items, bare_list <> JObj items)
  /\ call_universal_api (H := repr_plain) (answers 200 (Ok bare_list)) (u "q") configured
     = (emit (LogError (u "API error: '" ++ type_name bare_list
                        ++ u "' object has no attribute 'get'"))
          (emit (HttpPost (api_request (bot configured) (u "q"))) configured),
        u "❌ Error contacting API.").
Proof.
  assert (Hno : forall items, bare_list <> JObj items) by discriminate.
  split; [reflexivity|]. split; [exact Hno|].
  exact (lookup_body_not_object (H := repr_plain) (answers 200 (Ok bare_list))
           (u "q") configured {| status_code := 200; response_json := Ok bare_list |}
           bare_list eq_refl eq_refl eq_refl eq_refl Hno).
Defined.

(** ** The handlers *)

Lemma lstrip_blank (s : str) : forallb isspace s = true -> lstrip s = [].
Proof.
  induction s as [|c s IH]; [reflexivity|]. cbn [forallb lstrip].
  intros [Hc Hs]%andb_true_iff. rewrite Hc. apply IH, Hs.
Qed.

Lemma strip_blank (s : str) : forallb isspace s = true -> strip s = [].
Proof. intros Hs. unfold strip. rewrite (lstrip_blank _ Hs). reflexivity. Qed.

Section HandlerFacts.
Context `{PyRepr}.
Variable net : transport.

Lemma call_universal_api_world (query : str) (w : world) :
  exists es,
    fst (call_universal_api net query w)
    = World (bot w) (search_table w) (api_table w) (events w ++ es)
    /\ all_replies es = []
    /\ http_calls es
       = if not_configured (bot w) then [] else [api_request (bot w) query].
Proof.
  unfold call_universal_api. destruct (not_configured (bot w)).
  - exists []. rewrite app_nil_r. destruct w; repeat split.
  - destruct (api_attempt _ _ _ _ _) as [out|e];
      unfold emit; cbn [fst bot search_table api_table events].
    + exists [HttpPost (api_request (bot w) query)]. repeat split.
    + exists [HttpPost (api_request (bot w) query);
              LogError (u "API error: " ++ exc_msg e)].
      rewrite <- app_assoc. repeat split.
Qed.

Lemma handle_message_world (upd : update) (w : world) :
  exists es,
    fst (handle_message net upd w)
    = World (bot w) (search_table w) (api_table w)
        (events w
         ++ SendChatAction (chat_id upd) (u "typing") :: es
         ++ [SendMessage (chat_id upd)
               (snd (call_universal_api net (strip (text upd))
                       (emit (SendChatAction (chat_id upd) (u "typing")) w)))
               None None])
    /\ all_replies es = []
    /\ http_calls es
       = if not_configured (bot w) then []
         else [api_request (bot w) (strip (text upd))].
Proof.
  unfold handle_message.
  set (w1 := emit (SendChatAction (chat_id upd) (u "typing")) w).
  destruct (call_universal_api_world (strip (text upd)) w1) as (es & Hw & Hr & Hh).
  exists es. destruct (call_universal_api net (strip (text upd)) w1) as [w2 reply].
  cbn [fst snd] in *. subst w2. subst w1.
  unfold reply_text, emit. cbn [bot search_table api_table events] in *.
  rewrite <- !app_assoc. repeat split; assumption.
Qed.

Lemma perform_search_handle_message (upd : update) (w : world) :
  fst (perform_search net upd w) = fst (handle_message net upd w).
Proof.
  unfold perform_search, handle_message.
  destruct (call_universal_api _ _ _). reflexivity.
Qed.
End HandlerFacts.

(** X8.  [perform_search] and [handle_message] do the same to the
    world: the typing action first, then the events of the lookup (no
    message among them; one request if the key is usable, none otherwise),
    then one message with the lookup's reply to the asking chat; the bot
    object and the tables are left alone.
    They differ only in what they return: [END], and nothing. *)
Theorem search_handlers_trace `{PyRepr} (net : transport) (upd : update)
    (w : world) :
  let reply :=
    snd (call_universal_api net (strip (text upd))
           (emit (SendChatAction (chat_id upd) (u "typing")) w)) in
  exists es,
    fst (handle_message net upd w)
    = World (bot w) (search_table w) (api_table w)
        (events w
         ++ SendChatAction (chat_id upd) (u "typing") :: es
         ++ [SendMessage (chat_id upd) reply None None])
    /\ fst (perform_search net upd w) = fst (handle_message net upd w)
    /\ snd (perform_search net upd w) = Some END
    /\ snd (handle_message net upd w) = None
    /\ all_replies es = []
    /\ http_calls es
       = if not_configured (bot w) then []
         else [api_request (bot w) (strip (text upd))].
Proof.
  intros reply. destruct (handle_message_world net upd w) as (es & Hw & Hr & Hh).
  exists es. split; [exact Hw|]. split; [apply perform_search_handle_message|].
  split; [|split; [|split; assumption]].
  - unfold perform_search. destruct (call_universal_api _ _ _). reflexivity.
  - unfold handle_message. destruct (call_universal_api _ _ _). reflexivity.
Qed.

(** X9.  The key [save_api_key] stores, and the query the search
    handlers look up, are the message text with the whitespace cut from both
    ends and nothing else. *)
Theorem handlers_trim_text `{PyRepr} (net : transport) (upd : update) (w : world) :
  trimmed (text upd) (api_key (bot (fst (save_api_key upd w))))
  /\ exists query,
       trimmed (text upd) query
       /\ http_calls (events (fst (handle_message net upd w)))
          = http_calls (events w)
            ++ (if not_configured (bot w) then [] else [api_request (bot w) query])
       /\ http_calls (events (fst (perform_search net upd w)))
          = http_calls (events (fst (handle_message net upd w))).
Proof.
  split; [apply strip_trimmed|].
  exists (strip (text upd)). split; [apply strip_trimmed|].
  rewrite (perform_search_handle_message net). split; [|reflexivity].
  destruct (handle_message_world net upd w) as (es & -> & _ & Hh).
  cbn [events]. rewrite http_calls_app. cbn [http_calls].
  rewrite http_calls_app, Hh. cbn [http_calls]. rewrite app_nil_r. reflexivity.
Qed.

(** X10.  A message of whitespace only is looked up as the empty query:
    with a usable key, either search handler posts the request for the empty
    string. *)
Theorem blank_message_queries_empty `{PyRepr} (net : transport) (upd : update)
    (w : world) :
  forallb isspace (text upd) = true ->
  not_configured (bot w) = false ->
  http_calls (events (fst (handle_message net upd w)))
  = http_calls (events w) ++ [api_request (bot w) []]
  /\ http_calls (events (fst (perform_search net upd w)))
     = http_calls (events w) ++ [api_request (bot w) []].
Proof.
  intros Hb Hcfg. rewrite perform_search_handle_message.
  destruct (handle_message_world net upd w) as (es & -> & _ & Hh).
  rewrite Hcfg, (strip_blank _ Hb) in Hh. cbn [events].
  assert (Hc : http_calls
                 (events w ++ SendChatAction (chat_id upd) (u "typing") :: es
                  ++ [SendMessage (chat_id upd)
                        (snd (call_universal_api net (strip (text upd))
                                (emit (SendChatAction (chat_id upd) (u "typing")) w)))
                        None None])
               = http_calls (events w) ++ [api_request (bot w) []]).
  { rewrite http_calls_app. cbn [http_calls]. rewrite http_calls_app, Hh.
    cbn [http_calls app]. reflexivity. }
  split; exact Hc.
Qed.

Lemma blank_message_queries_empty_witness :
  forallb isspace (text (says alice (u "  "))) = true
  /\ not_configured (bot configured) = false
  /\ http_calls (events (fst (handle_message (H := repr_plain) unreachable
                                (says alice (u "  ")) configured)))
     = http_calls (events configured) ++ [api_request (bot configured) []].
Proof.
  split; [reflexivity|]. split; [reflexivity|].
  refine (proj1 (blank_message_queries_empty (H := repr_plain) unreachable
                   (says alice (u "  ")) configured _ _)); reflexivity.
Defined.

(** X11.  [save_api_key] accepts any text: when the text is blank, or is
    the placeholder once trimmed, it still answers that the key was updated,
    and afterwards every lookup answers not configured, without a request. *)
Theorem save_blank_key_unconfigures `{PyRepr} (upd : update) (w : world) :
  forallb isspace (text upd) = true
  \/ strip (text upd) = u "YOUR_API_KEY_HERE" ->
  let w' := fst (save_api_key upd w) in
  events w'
  = events w ++ [SendMessage (chat_id upd) (u "✅ API key updated successfully!")
                   None None]
  /\ forall (net : transport) (query : str),
       call_universal_api net query w'
       = (w', u "❌ API not configured. Use /setapi.").
Proof.
  intros Hkey w'. split; [reflexivity|]. intros net query.
  unfold call_universal_api.
  assert (Hn : not_configured (bot w') = true).
  { unfold not_configured. subst w'. cbn [save_api_key fst reply_text emit set_bot bot api_key].
    destruct Hkey as [Hb|Hs].
    - rewrite (strip_blank _ Hb). reflexivity.
    - rewrite Hs. unfold str_eqb. rewrite bool_decide_eq_true_2 by reflexivity.
      apply orb_true_r. }
  rewrite Hn. reflexivity.
Qed.

Lemma save_blank_key_unconfigures_witness :
  forallb isspace (text (says alice (u " "))) = true
  /\ call_universal_api (H := repr_plain) (answers 200 (Ok one_finding)) (u "q")
       (fst (save_api_key (says alice (u " ")) configured))
     = (fst (save_api_key (says alice (u " ")) configured),
        u "❌ API not configured. Use /setapi.").
Proof.
  split; [reflexivity|].
  refine (proj2 (save_blank_key_unconfigures (H := repr_plain)
                   (says alice (u " ")) configured _) _ _).
  left. reflexivity.
Defined.

(** X12.  Saving a key makes no request (the key is not validated), and
    the next lookup is sent to the same URL with [Authorization: Bearer]
    followed by the trimmed text that was saved. *)
Theorem save_then_lookup `{PyRepr} (net : transport) (upd : update)
    (query : str) (w : world) :
  strip (text upd) <> [] ->
  strip (text upd) <> u "YOUR_API_KEY_HERE" ->
  let w' := fst (save_api_key upd w) in
  http_calls (events w') = http_calls (events w)
  /\ http_calls (events (fst (call_universal_api net query w')))
     = http_calls (events w)
       ++ [{| req_url := api_url (bot w);
              req_json := JObj [(u "query", JStr query)];
              req_headers :=
                [(u "Authorization", u "Bearer " ++ strip (text upd));
                 (u "Content-Type", u "application/json")];
              req_timeout := 30 |}].
Proof.
  intros Hne Hns w'.
  assert (Hsave : http_calls (events w') = http_calls (events w)).
  { subst w'. cbn [save_api_key fst reply_text emit set_bot events].
    rewrite http_calls_app. cbn [http_calls]. apply app_nil_r. }
  split; [exact Hsave|].
  destruct (call_universal_api_world net query w') as (es & -> & _ & Hh).
  cbn [events]. rewrite http_calls_app, Hh, Hsave.
  assert (Hn : not_configured (bot w') = false).
  { unfold not_configured. subst w'. cbn [save_api_key fst reply_text emit set_bot bot api_key].
    unfold str_eqb. rewrite bool_decide_eq_false_2 by exact Hns.
    destruct (strip (text upd)); [congruence | reflexivity]. }
  rewrite Hn. reflexivity.
Qed.

Lemma save_then_lookup_witness :
  strip (text (says alice (u " k2 "))) <> []
  /\ strip (text (says alice (u " k2 "))) <> u "YOUR_API_KEY_HERE"
  /\ http_calls (events (fst (call_universal_api (H := repr_plain) unreachable (u "q")
                                (fst (save_api_key (says alice (u " k2 ")) configured)))))
     = [{| req_url := api_url (bot configured);
           req_json := JObj [(u "query", JStr (u "q"))];
           req_headers :=
             [(u "Authorization", u "Bearer " ++ strip (text (says alice (u " k2 "))));
              (u "Content-Type", u "application/json")];
           req_timeout := 30 |}].
Proof.
  assert (H1 : strip (text (says alice (u " k2 "))) <> []) by (vm_compute; discriminate).
  assert (H2 : strip (text (says alice (u " k2 "))) <> u "YOUR_API_KEY_HERE")
    by (vm_compute; discriminate).
  split; [exact H1|]. split; [exact H2|].
  exact (proj2 (save_then_lookup (H := repr_plain) unreachable
                  (says alice (u " k2 ")) (u "q") configured H1 H2)).
Defined.

(** ** The start of the process *)

(** X13.  The bot starts with a usable key exactly when the environment
    sets [API_KEY] to a value that is neither empty nor the placeholder. *)
Theorem boot_configured_iff (e : environ) :
  not_configured (bot (boot e)) = false
  <-> exists k, env_API_KEY e = Some k /\ k <> [] /\ k <> u "YOUR_API_KEY_HERE".
Proof.
  unfold not_configured, boot, DataSearchBot_init, API_KEY, str_eqb.
  cbn [bot api_key]. destruct (env_API_KEY e) as [k|]; cbn [default from_option id].
  - split.
    + intros [Hne Hns]%orb_false_iff. exists k. split; [reflexivity|]. split.
      * intros ->. discriminate Hne.
      * intros ->. rewrite bool_decide_eq_true_2 in Hns by reflexivity. discriminate.
    + intros (k' & [= <-] & Hne & Hns). apply orb_false_iff. split.
      * destruct k; [congruence | reflexivity].
      * apply bool_decide_eq_false_2, Hns.
  - split.
    + rewrite bool_decide_eq_true_2 by reflexivity. rewrite orb_true_r. discriminate.
    + intros (k & Hk & _). discriminate.
Qed.

(** ** Dispatch: which handler takes an update *)

Section RouterFacts.
Context `{PyRepr}.
Variable net : transport.

Lemma not_command_text (upd : update) :
  leading_command upd = None -> text upd <> [] -> TEXT_and_not_COMMAND upd = true.
Proof.
  intros Hc Ht. unfold TEXT_and_not_COMMAND, filters_TEXT, filters_COMMAND.
  rewrite Hc. destruct (text upd); [congruence | reflexivity].
Qed.

Lemma command_not_text (upd : update) (c : command) :
  leading_command upd = Some c -> TEXT_and_not_COMMAND upd = false.
Proof.
  intros Hc. unfold TEXT_and_not_COMMAND, filters_COMMAND.
  rewrite Hc. apply andb_false_r.
Qed.

Lemma process_start (upd : update) (w : world) :
  leading_command upd = Some CmdStart ->
  process_update net upd w = fst (start upd w).
Proof.
  intros Hc. unfold process_update, application.
  cbn [process CommandHandler accepts run]. rewrite Hc.
  rewrite bool_decide_eq_true_2 by reflexivity. reflexivity.
Qed.

Lemma process_help (upd : update) (w : world) :
  leading_command upd = Some CmdHelp ->
  process_update net upd w = fst (help upd w).
Proof.
  intros Hc. unfold process_update, application.
  cbn [process CommandHandler accepts run]. rewrite Hc.
  rewrite bool_decide_eq_false_2 by discriminate.
  rewrite bool_decide_eq_true_2 by reflexivity. reflexivity.
Qed.


Lemma check_update_conv (c : command) (entry : callback) (st0 : Z)
    (cb : callback) (state : option Z) (upd : update) :
  check_update
    {| entry_points := [CommandHandler c entry];
       states := [(st0, [MessageHandler TEXT_and_not_COMMAND cb])];
       fallbacks := [CommandHandler CmdCancel cancel];
       allow_reentry := false |} state upd
  = match state with
    | None =>
        if bool_decide (leading_command upd = Some c)
        then Some (CommandHandler c entry) else None
    | Some st =>
        if Z.eqb st st0 && TEXT_and_not_COMMAND upd
        then Some (MessageHandler TEXT_and_not_COMMAND cb)
        else if bool_decide (leading_command upd = Some CmdCancel)
             then Some (CommandHandler CmdCancel cancel) else None
    end.
Proof.
  unfold check_update, first_accepting.
  cbn [entry_points states fallbacks allow_reentry find handlers_of_state
       CommandHandler MessageHandler accepts].
  destruct state as [st|].
  - destruct (Z.eqb st st0); cbn [find andb MessageHandler accepts].
    + destruct (TEXT_and_not_COMMAND upd); [reflexivity|].
      destruct (bool_decide _); reflexivity.
    + destruct (bool_decide _); reflexivity.
  - destruct (bool_decide _); reflexivity.
Qed.

Lemma process_update_unfold (upd : update) (w : world) :
  process_update net upd w
  = if bool_decide (leading_command upd = Some CmdStart) then fst (start upd w)
    else if bool_decide (leading_command upd = Some CmdHelp) then fst (help upd w)
    else
      match check_update (search_conv net) (search_table w !! key_of upd) upd with
      | Some h =>
          update_state SearchTable (key_of upd) (snd (run h upd w)) (fst (run h upd w))
      | None =>
          match check_update api_conv (api_table w !! key_of upd) upd with
          | Some h =>
              update_state ApiTable (key_of upd) (snd (run h upd w)) (fst (run h upd w))
          | None =>
              if TEXT_and_not_COMMAND upd then fst (handle_message net upd w) else w
          end
      end.
Proof.
  unfold process_update, application.
  cbn [process CommandHandler MessageHandler accepts run conversations].
  destruct (bool_decide _); [reflexivity|].
  destruct (bool_decide _); [reflexivity|].
  destruct (check_update (search_conv net) _ _) as [h|].
  { destruct (run h upd w); reflexivity. }
  destruct (check_update api_conv _ _) as [h|].
  { destruct (run h upd w); reflexivity. }
  reflexivity.
Qed.

Ltac dispatch Hc :=
  rewrite process_update_unfold;
  unfold search_conv, api_conv; rewrite !check_update_conv;
  rewrite ?Hc;
  repeat first
    [ rewrite bool_decide_eq_true_2 by reflexivity
    | rewrite bool_decide_eq_false_2 by discriminate ].

Lemma process_search_command (upd : update) (w : world) :
  leading_command upd = Some CmdSearch ->
  process_update net upd w
  = match search_table w !! key_of upd with
    | None => update_state SearchTable (key_of upd) (Some SEARCH) (fst (search upd w))
    | Some _ => w
    end.
Proof.
  intros Hc. dispatch Hc. rewrite (command_not_text _ _ Hc).
  destruct (search_table w !! key_of upd); rewrite ?andb_false_r; [|reflexivity].
  destruct (api_table w !! key_of upd); rewrite ?andb_false_r; reflexivity.
Qed.

Lemma process_setapi_command (upd : update) (w : world) :
  leading_command upd = Some CmdSetapi ->
  process_update net upd w
  = match api_table w !! key_of upd with
    | None => update_state ApiTable (key_of upd) (Some API_SETUP) (fst (setup_api upd w))
    | Some _ => w
    end.
Proof.
  intros Hc. dispatch Hc. rewrite (command_not_text _ _ Hc).
  destruct (search_table w !! key_of upd);
    destruct (api_table w !! key_of upd); rewrite ?andb_false_r; reflexivity.
Qed.

Lemma process_cancel_command (upd : update) (w : world) :
  leading_command upd = Some CmdCancel ->
  process_update net upd w
  = match search_table w !! key_of upd with
    | Some _ => update_state SearchTable (key_of upd) (Some END) (fst (cancel upd w))
    | None =>
        match api_table w !! key_of upd with
        | Some _ => update_state ApiTable (key_of upd) (Some END) (fst (cancel upd w))
        | None => w
        end
    end.
Proof.
  intros Hc. dispatch Hc. rewrite (command_not_text _ _ Hc).
  destruct (search_table w !! key_of upd); rewrite ?andb_false_r; [reflexivity|].
  destruct (api_table w !! key_of upd); rewrite ?andb_false_r; reflexivity.
Qed.

Lemma process_other_command (upd : update) (w : world) :
  leading_command upd = Some CmdOther -> process_update net upd w = w.
Proof.
  intros Hc. dispatch Hc. rewrite (command_not_text _ _ Hc).
  destruct (search_table w !! key_of upd);
    destruct (api_table w !! key_of upd); rewrite ?andb_false_r; reflexivity.
Qed.

Lemma process_no_text (upd : update) (w : world) :
  leading_command upd = None -> text upd = [] -> process_update net upd w = w.
Proof.
  intros Hc Ht.
  assert (Hf : TEXT_and_not_COMMAND upd = false).
  { unfold TEXT_and_not_COMMAND, filters_TEXT. rewrite Ht. reflexivity. }
  dispatch Hc. rewrite Hf.
  destruct (search_table w !! key_of upd);
    destruct (api_table w !! key_of upd); rewrite ?andb_false_r; reflexivity.
Qed.

Lemma perform_search_returns (upd : update) (w : world) :
  snd (perform_search net upd w) = Some END.
Proof.
  unfold perform_search. destruct (call_universal_api _ _ _). reflexivity.
Qed.

Lemma process_text (upd : update) (w : world) :
  TEXT_and_not_COMMAND upd = true ->
  process_update net upd w
  = if bool_decide (search_table w !! key_of upd = Some SEARCH)
    then update_state SearchTable (key_of upd) (Some END)
           (fst (perform_search net upd w))
    else if bool_decide (api_table w !! key_of upd = Some API_SETUP)
    then update_state ApiTable (key_of upd) (Some END) (fst (save_api_key upd w))
    else fst (handle_message net upd w).
Proof.
  intros Ht.
  assert (Hc : leading_command upd = None).
  { unfold TEXT_and_not_COMMAND, filters_COMMAND in Ht.
    destruct (leading_command upd); [|reflexivity].
    rewrite andb_false_r in Ht. discriminate. }
  dispatch Hc. rewrite Ht.
  destruct (search_table w !! key_of upd) as [st|] eqn:Hs; rewrite ?andb_true_r.
  - destruct (Z.eqb_spec st SEARCH) as [->|Hne].
    + rewrite bool_decide_eq_true_2 by reflexivity.
      cbn [MessageHandler run]. rewrite perform_search_returns. reflexivity.
    + rewrite (bool_decide_eq_false_2 (Some st = Some SEARCH)) by congruence.
      destruct (api_table w !! key_of upd) as [st'|] eqn:Ha; rewrite ?andb_true_r.
      * destruct (Z.eqb_spec st' API_SETUP) as [->|Hne'].
        -- rewrite bool_decide_eq_true_2 by reflexivity. reflexivity.
        -- rewrite bool_decide_eq_false_2 by congruence. reflexivity.
      * rewrite bool_decide_eq_false_2 by discriminate. reflexivity.
  - rewrite bool_decide_eq_false_2 by discriminate.
    destruct (api_table w !! key_of upd) as [st'|] eqn:Ha; rewrite ?andb_true_r.
    + destruct (Z.eqb_spec st' API_SETUP) as [->|Hne'].
      * rewrite bool_decide_eq_true_2 by reflexivity. reflexivity.
      * rewrite bool_decide_eq_false_2 by congruence. reflexivity.
    + rewrite bool_decide_eq_false_2 by discriminate. reflexivity.
Qed.
End RouterFacts.

Section RouterSteps.
Context `{PyRepr}.
Variable net : transport.

Lemma update_state_events (t : table) (k : session) (ns : option Z) (w : world) :
  events (update_state t k ns w) = events w.
Proof.
  unfold update_state. destruct ns as [st|]; [|reflexivity].
  destruct (Z.eqb st END); destruct t; reflexivity.
Qed.

Lemma update_state_bot (t : table) (k : session) (ns : option Z) (w : world) :
  bot (update_state t k ns w) = bot w.
Proof.
  unfold update_state. destruct ns as [st|]; [|reflexivity].
  destruct (Z.eqb st END); destruct t; reflexivity.
Qed.

Lemma update_state_other (t : table) (k : session) (ns : option Z) (w : world)
    (s : session) :
  s <> k ->
  search_table (update_state t k ns w) !! s = search_table w !! s
  /\ api_table (update_state t k ns w) !! s = api_table w !! s.
Proof.
  intros Hs. unfold update_state. destruct ns as [st|]; [|split; reflexivity].
  destruct (Z.eqb st END); destruct t; cbn;
    rewrite ?lookup_delete_ne, ?lookup_insert_ne by congruence; split; reflexivity.
Qed.

(** Every update ends in one of six ways: it is ignored; [/start] or
    [/help] answers; an entry point or [/cancel] answers and sets a
    conversation state; a pending search is performed; a pending key is
    saved; or the text is searched outside any conversation. *)
Lemma process_update_cases (upd : update) (w : world) :
  process_update net upd w = w
  \/ (exists body,
        process_update net upd w
        = emit (SendMessage (chat_id upd) body (Some (u "Markdown")) None) w)
  \/ (exists t st body mk,
        process_update net upd w
        = update_state t (key_of upd) (Some st)
            (emit (SendMessage (chat_id upd) body None mk) w)
        /\ ((t = SearchTable /\ st = SEARCH) \/ (t = ApiTable /\ st = API_SETUP)
            \/ st = END))
  \/ (TEXT_and_not_COMMAND upd = true
      /\ search_table w !! key_of upd = Some SEARCH
      /\ process_update net upd w
         = update_state SearchTable (key_of upd) (Some END)
             (fst (handle_message net upd w)))
  \/ (TEXT_and_not_COMMAND upd = true
      /\ search_table w !! key_of upd <> Some SEARCH
      /\ api_table w !! key_of upd = Some API_SETUP
      /\ process_update net upd w
         = update_state ApiTable (key_of upd) (Some END) (fst (save_api_key upd w)))
  \/ (TEXT_and_not_COMMAND upd = true
      /\ search_table w !! key_of upd <> Some SEARCH
      /\ api_table w !! key_of upd <> Some API_SETUP
      /\ process_update net upd w = fst (handle_message net upd w)).
Proof.
  destruct (leading_command upd) as [c|] eqn:Hc.
  - destruct c.
    + right; left. rewrite (process_start net _ _ Hc). eexists. reflexivity.
    + right; left. rewrite (process_help net _ _ Hc). eexists. reflexivity.
    + rewrite (process_search_command net _ _ Hc).
      destruct (search_table w !! key_of upd); [left; reflexivity|].
      right; right; left. exists SearchTable, SEARCH. eexists. exists None.
      split; [reflexivity | left; split; reflexivity].
    + rewrite (process_setapi_command net _ _ Hc).
      destruct (api_table w !! key_of upd); [left; reflexivity|].
      right; right; left. exists ApiTable, API_SETUP. eexists. exists None.
      split; [reflexivity | right; left; split; reflexivity].
    + rewrite (process_cancel_command net _ _ Hc).
      destruct (search_table w !! key_of upd).
      * right; right; left. exists SearchTable, END. eexists.
        exists (Some ReplyKeyboardRemove).
        split; [reflexivity | right; right; reflexivity].
      * destruct (api_table w !! key_of upd); [|left; reflexivity].
        right; right; left. exists ApiTable, END. eexists.
        exists (Some ReplyKeyboardRemove).
        split; [reflexivity | right; right; reflexivity].
    + left. apply (process_other_command net _ _ Hc).
  - destruct (text upd) as [|ch t] eqn:Ht.
    + left. apply (process_no_text net _ _ Hc Ht).
    + assert (Htext : TEXT_and_not_COMMAND upd = true).
      { apply not_command_text; [exact Hc | rewrite Ht; discriminate]. }
      rewrite (process_text net _ _ Htext).
      case_bool_decide as Hs.
      * right; right; right; left.
        rewrite (perform_search_handle_message net). repeat split; assumption.
      * case_bool_decide as Ha.
        -- right; right; right; right; left. repeat split; assumption.
        -- right; right; right; right; right. repeat split; assumption.
Qed.
Lemma process_saves_key (upd : update) (w : world) :
  TEXT_and_not_COMMAND upd = true ->
  search_table w !! key_of upd = None ->
  awaiting_api_key w (key_of upd) ->
  process_update net upd w
  = World (MkBot (api_url (bot w)) (strip (text upd)))
      (search_table w) (delete (key_of upd) (api_table w))
      (events w
       ++ [SendMessage (chat_id upd) (u "✅ API key updated successfully!") None None]).
Proof.
  intros Ht Hs Ha. rewrite (process_text net _ _ Ht).
  rewrite bool_decide_eq_false_2 by (rewrite Hs; discriminate).
  rewrite bool_decide_eq_true_2 by exact Ha. reflexivity.
Qed.

Lemma process_free_text (upd : update) (w : world) :
  TEXT_and_not_COMMAND upd = true ->
  idle w (key_of upd) ->
  process_update net upd w = fst (handle_message net upd w).
Proof.
  intros Ht [Hs Ha]. rewrite (process_text net _ _ Ht).
  rewrite bool_decide_eq_false_2 by (rewrite Hs; discriminate).
  rewrite bool_decide_eq_false_2 by (rewrite Ha; discriminate). reflexivity.
Qed.
End RouterSteps.

(** ** The commands and the texts, one by one *)



(** X15.  [/search] from a session with no pending search sends the
    prompt, once, and makes the session await a query; the key table, the bot
    object and the earlier events are unchanged.  It does so also when the
    session awaits a key. *)
Theorem search_command_opens `{PyRepr} (net : transport) (upd : update)
    (w : world) :
  leading_command upd = Some CmdSearch ->
  search_table w !! key_of upd = None ->
  process_update net upd w
  = World (bot w) (<[key_of upd := SEARCH]> (search_table w)) (api_table w)
      (events w
       ++ [SendMessage (chat_id upd)
             (u "🔍 Please enter your query:\n\n"
              ++ u "You can enter email, phone, IP, VIN, username, etc.\n"
              ++ u "👉 Multiple queries? Send them line by line.") None None])
  /\ awaiting_search (process_update net upd w) (key_of upd).
Proof.
  intros Hc Hs. rewrite (process_search_command net _ _ Hc), Hs.
  split; [reflexivity|].
  unfold awaiting_search. cbn. apply lookup_insert_eq.
Qed.

Lemma search_command_opens_witness :
  leading_command (sends alice CmdSearch) = Some CmdSearch
  /\ search_table setting_key !! key_of (sends alice CmdSearch) = None
  /\ awaiting_search
       (process_update (H := repr_plain) unreachable (sends alice CmdSearch) setting_key)
       (key_of (sends alice CmdSearch)).
Proof.
  split; [reflexivity|]. split; [reflexivity|].
  exact (proj2 (search_command_opens (H := repr_plain) unreachable
                  (sends alice CmdSearch) setting_key eq_refl eq_refl)).
Defined.

(** X16.  [/setapi] from a session with no pending key entry sends the
    key prompt and makes the session await a key, also in the middle of a
    search, which stays pending. *)
Theorem setapi_command_opens `{PyRepr} (net : transport) (upd : update)
    (w : world) :
  leading_command upd = Some CmdSetapi ->
  api_table w !! key_of upd = None ->
  process_update net upd w
  = World (bot w) (search_table w) (<[key_of upd := API_SETUP]> (api_table w))
      (events w ++ [SendMessage (chat_id upd) (u "Please send your API key:") None None])
  /\ awaiting_api_key (process_update net upd w) (key_of upd)
  /\ (awaiting_search w (key_of upd) ->
      awaiting_search (process_update net upd w) (key_of upd)).
Proof.
  intros Hc Ha. rewrite (process_setapi_command net _ _ Hc), Ha.
  split; [reflexivity|]. split.
  - unfold awaiting_api_key. cbn. apply lookup_insert_eq.
  - intros Hs. exact Hs.
Qed.

Lemma setapi_command_opens_witness :
  leading_command (sends alice CmdSetapi) = Some CmdSetapi
  /\ api_table searching !! key_of (sends alice CmdSetapi) = None
  /\ awaiting_search searching alice
  /\ awaiting_api_key
       (process_update (H := repr_plain) unreachable (sends alice CmdSetapi) searching)
       alice
  /\ awaiting_search
       (process_update (H := repr_plain) unreachable (sends alice CmdSetapi) searching)
       alice.
Proof.
  assert (Hs : awaiting_search searching alice) by reflexivity.
  split; [reflexivity|]. split; [reflexivity|]. split; [exact Hs|].
  destruct (setapi_command_opens (H := repr_plain) unreachable
              (sends alice CmdSetapi) searching eq_refl eq_refl) as (_ & Ha & Hk).
  split; [exact Ha | exact (Hk Hs)].
Defined.

(** X17.  [/search] from a session that already has a search pending,
    and [/setapi] from one that already has a key entry pending, are ignored:
    no reply, no change. *)
Theorem repeated_entry_command_ignored `{PyRepr} (net : transport)
    (upd : update) (w : world) :
  (leading_command upd = Some CmdSearch /\ is_Some (search_table w !! key_of upd))
  \/ (leading_command upd = Some CmdSetapi /\ is_Some (api_table w !! key_of upd)) ->
  process_update net upd w = w.
Proof.
  intros [[Hc [st Hs]]|[Hc [st Ha]]].
  - rewrite (process_search_command net _ _ Hc), Hs. reflexivity.
  - rewrite (process_setapi_command net _ _ Hc), Ha. reflexivity.
Qed.

Lemma repeated_entry_command_ignored_witness :
  leading_command (sends alice CmdSearch) = Some CmdSearch
  /\ is_Some (search_table searching !! key_of (sends alice CmdSearch))
  /\ process_update (H := repr_plain) unreachable (sends alice CmdSearch) searching
     = searching.
Proof.
  assert (Hs : is_Some (search_table searching !! key_of (sends alice CmdSearch)))
    by (exists SEARCH; reflexivity).
  split; [reflexivity|]. split; [exact Hs|].
  apply (repeated_entry_command_ignored (H := repr_plain)).
  left. split; [reflexivity | exact Hs].
Defined.

(** X18.  [/cancel] closes one conversation of the session: the search if
    one is pending, else the key entry if one is pending, answering
    Operation cancelled with the keyboard removed; a session with both
    pending keeps the key entry, and an idle session gets no answer. *)
Theorem cancel_command_closes_one `{PyRepr} (net : transport) (upd : update)
    (w : world) :
  leading_command upd = Some CmdCancel ->
  let cancelled :=
    events w ++ [SendMessage (chat_id upd) (u "❌ Operation cancelled.") None
                   (Some ReplyKeyboardRemove)] in
  process_update net upd w
  = match search_table w !! key_of upd, api_table w !! key_of upd with
    | Some _, _ =>
        World (bot w) (delete (key_of upd) (search_table w)) (api_table w) cancelled
    | None, Some _ =>
        World (bot w) (search_table w) (delete (key_of upd) (api_table w)) cancelled
    | None, None => w
    end.
Proof.
  intros Hc cancelled. rewrite (process_cancel_command net _ _ Hc).
  destruct (search_table w !! key_of upd); [reflexivity|].
  destruct (api_table w !! key_of upd); reflexivity.
Qed.

Lemma cancel_command_closes_one_witness :
  leading_command (sends alice CmdCancel) = Some CmdCancel
  /\ awaiting_search searching_and_setting_key alice
  /\ awaiting_api_key searching_and_setting_key alice
  /\ search_table
       (process_update (H := repr_plain) unreachable (sends alice CmdCancel)
          searching_and_setting_key) !! alice = None
  /\ awaiting_api_key
       (process_update (H := repr_plain) unreachable (sends alice CmdCancel)
          searching_and_setting_key) alice.
Proof.
  split; [reflexivity|]. split; [reflexivity|]. split; [reflexivity|].
  rewrite (cancel_command_closes_one (H := repr_plain) unreachable
             (sends alice CmdCancel) searching_and_setting_key eq_refl).
  split; reflexivity.
Defined.

(** X19.  A text from a session that awaits a query is looked up and
    answered, and the search conversation ends; the key table and the bot
    object are unchanged. *)
Theorem query_after_search `{PyRepr} (net : transport) (upd : update)
    (w : world) :
  TEXT_and_not_COMMAND upd = true ->
  awaiting_search w (key_of upd) ->
  let reply :=
    snd (call_universal_api net (strip (text upd))
           (emit (SendChatAction (chat_id upd) (u "typing")) w)) in
  exists es,
    process_update net upd w
    = World (bot w) (delete (key_of upd) (search_table w)) (api_table w)
        (events w
         ++ SendChatAction (chat_id upd) (u "typing") :: es
         ++ [SendMessage (chat_id upd) reply None None])
    /\ all_replies es = []
    /\ http_calls es
       = if not_configured (bot w) then []
         else [api_request (bot w) (strip (text upd))].
Proof.
  intros Ht Hs reply. rewrite (process_text net _ _ Ht).
  rewrite bool_decide_eq_true_2 by exact Hs.
  rewrite (perform_search_handle_message net).
  destruct (handle_message_world net upd w) as (es & -> & Hr & Hh).
  exists es. repeat split; assumption.
Qed.

Lemma query_after_search_witness :
  TEXT_and_not_COMMAND (says alice (u "q")) = true
  /\ awaiting_search searching (key_of (says alice (u "q")))
  /\ search_table
       (process_update (H := repr_plain) unreachable (says alice (u "q")) searching)
     !! alice = None.
Proof.
  split; [reflexivity|]. split; [reflexivity|].
  destruct (query_after_search (H := repr_plain) unreachable (says alice (u "q"))
              searching eq_refl eq_refl) as (es & Hw & _).
  rewrite Hw. apply lookup_delete_eq.
Defined.

(** X20.  A text from a session that awaits a key, and no query, becomes
    the key of the bot (trimmed); the session is answered once and is idle
    afterwards; no request is made. *)
Theorem key_after_setapi `{PyRepr} (net : transport) (upd : update)
    (w : world) :
  TEXT_and_not_COMMAND upd = true ->
  search_table w !! key_of upd = None ->
  awaiting_api_key w (key_of upd) ->
  process_update net upd w
  = World (MkBot (api_url (bot w)) (strip (text upd)))
      (search_table w) (delete (key_of upd) (api_table w))
      (events w
       ++ [SendMessage (chat_id upd) (u "✅ API key updated successfully!") None None])
  /\ idle (process_update net upd w) (key_of upd).
Proof.
  intros Ht Hs Ha. rewrite (process_text net _ _ Ht).
  rewrite bool_decide_eq_false_2 by (rewrite Hs; discriminate).
  rewrite bool_decide_eq_true_2 by exact Ha.
  split; [reflexivity|]. split; cbn; [exact Hs | apply lookup_delete_eq].
Qed.

Lemma key_after_setapi_witness :
  TEXT_and_not_COMMAND (says alice (u " k2 ")) = true
  /\ search_table setting_key !! key_of (says alice (u " k2 ")) = None
  /\ awaiting_api_key setting_key (key_of (says alice (u " k2 ")))
  /\ api_key (bot (process_update (H := repr_plain) unreachable
                     (says alice (u " k2 ")) setting_key))
     = strip (u " k2 ").
Proof.
  split; [reflexivity|]. split; [reflexivity|]. split; [reflexivity|].
  rewrite (proj1 (key_after_setapi (H := repr_plain) unreachable
                    (says alice (u " k2 ")) setting_key eq_refl eq_refl eq_refl)).
  reflexivity.
Defined.

(** X21.  A text from an idle session is handled by [handle_message]: it
    is looked up like a query, and the session stays idle. *)
Theorem free_text_is_searched `{PyRepr} (net : transport) (upd : update)
    (w : world) :
  TEXT_and_not_COMMAND upd = true ->
  idle w (key_of upd) ->
  process_update net upd w = fst (handle_message net upd w)
  /\ idle (process_update net upd w) (key_of upd).
Proof.
  intros Ht [Hs Ha]. rewrite (process_text net _ _ Ht).
  rewrite bool_decide_eq_false_2 by (rewrite Hs; discriminate).
  rewrite bool_decide_eq_false_2 by (rewrite Ha; discriminate).
  split; [reflexivity|].
  destruct (handle_message_world net upd w) as (es & -> & _). split; assumption.
Qed.

Lemma free_text_is_searched_witness :
  TEXT_and_not_COMMAND (says bob (u "q")) = true
  /\ idle searching (key_of (says bob (u "q")))
  /\ process_update (H := repr_plain) unreachable (says bob (u "q")) searching
     = fst (handle_message (H := repr_plain) unreachable (says bob (u "q")) searching).
Proof.
  assert (Hi : idle searching (key_of (says bob (u "q")))) by (split; reflexivity).
  split; [reflexivity|]. split; [exact Hi|].
  exact (proj1 (free_text_is_searched (H := repr_plain) unreachable
                  (says bob (u "q")) searching eq_refl Hi)).
Defined.

(** X22.  When a session has both a search and a key entry pending, the
    text it sends is looked up as a query with the present key, not saved:
    the key is unchanged, and the session still awaits a key afterwards. *)
Theorem text_in_both_conversations `{PyRepr} (net : transport) (upd : update)
    (w : world) :
  TEXT_and_not_COMMAND upd = true ->
  awaiting_search w (key_of upd) ->
  awaiting_api_key w (key_of upd) ->
  not_configured (bot w) = false ->
  let w' := process_update net upd w in
  bot w' = bot w
  /\ awaiting_api_key w' (key_of upd)
  /\ search_table w' !! key_of upd = None
  /\ http_calls (events w')
     = http_calls (events w) ++ [api_request (bot w) (strip (text upd))].
Proof.
  intros Ht Hs Ha Hcfg w'. subst w'. rewrite (process_text net _ _ Ht).
  rewrite bool_decide_eq_true_2 by exact Hs.
  rewrite (perform_search_handle_message net).
  destruct (handle_message_world net upd w) as (es & -> & Hr & Hh).
  rewrite Hcfg in Hh.
  split; [reflexivity|]. split; [exact Ha|]. split; [apply lookup_delete_eq|].
  cbn. rewrite http_calls_app. cbn [http_calls]. rewrite http_calls_app, Hh.
  reflexivity.
Qed.

Lemma text_in_both_conversations_witness :
  TEXT_and_not_COMMAND (says alice (u "k2")) = true
  /\ awaiting_search searching_and_setting_key (key_of (says alice (u "k2")))
  /\ awaiting_api_key searching_and_setting_key (key_of (says alice (u "k2")))
  /\ not_configured (bot searching_and_setting_key) = false
  /\ api_key (bot (process_update (H := repr_plain) unreachable (says alice (u "k2"))
                     searching_and_setting_key))
     = u "s3cr3t".
Proof.
  split; [reflexivity|]. split; [reflexivity|]. split; [reflexivity|].
  split; [reflexivity|].
  rewrite (proj1 (text_in_both_conversations (H := repr_plain) unreachable
                    (says alice (u "k2")) searching_and_setting_key
                    eq_refl eq_refl eq_refl eq_refl)).
  reflexivity.
Defined.

(** X23.  A command no handler is registered for, an update without
    text, and [/cancel] from an idle session leave the world as it is: nothing
    is sent. *)
Theorem unhandled_updates_ignored `{PyRepr} (net : transport) (upd : update)
    (w : world) :
  leading_command upd = Some CmdOther
  \/ (leading_command upd = None /\ text upd = [])
  \/ (leading_command upd = Some CmdCancel /\ idle w (key_of upd)) ->
  process_update net upd w = w.
Proof.
  intros [Hc|[[Hc Ht]|[Hc [Hs Ha]]]].
  - exact (process_other_command net _ _ Hc).
  - exact (process_no_text net _ _ Hc Ht).
  - rewrite (process_cancel_command net _ _ Hc), Hs, Ha. reflexivity.
Qed.

Lemma unhandled_updates_ignored_witness :
  leading_command (sends bob CmdCancel) = Some CmdCancel
  /\ idle searching (key_of (sends bob CmdCancel))
  /\ process_update (H := repr_plain) unreachable (sends bob CmdCancel) searching
     = searching.
Proof.
  assert (Hi : idle searching (key_of (sends bob CmdCancel))) by (split; reflexivity).
  split; [reflexivity|]. split; [exact Hi|].
  apply (unhandled_updates_ignored (H := repr_plain)).
  right; right. split; [reflexivity | exact Hi].
Defined.

(** ** What holds of every update *)

Section RouterInvariants.
Context `{PyRepr}.
Variable net : transport.

Lemma process_update_events (upd : update) (w : world) :
  exists es,
    events (process_update net upd w) = events w ++ es
    /\ (all_replies es = [] \/ exists body, all_replies es = [(chat_id upd, body)])
    /\ (not_configured (bot w) = true -> http_calls es = []).
Proof.
  destruct (process_update_cases net upd w)
    as [->|[(body & ->)|[(t & st & body & mk & -> & _)|[(_ & _ & ->)|[(_ & _ & _ & ->)|(_ & _ & _ & ->)]]]]];
    rewrite ?update_state_events.
  - exists []. rewrite app_nil_r. split; [reflexivity|]. split; [left|]; reflexivity.
  - eexists. split; [reflexivity|]. split; [right; eexists|]; reflexivity.
  - eexists. split; [reflexivity|]. split; [right; eexists|]; reflexivity.
  - destruct (handle_message_world net upd w) as (es & -> & Hr & Hh).
    eexists. split; [reflexivity|]. split.
    + right. eexists. cbn [all_replies]. rewrite all_replies_app, Hr. reflexivity.
    + intros Hn. rewrite Hn in Hh. cbn [http_calls]. rewrite http_calls_app, Hh.
      reflexivity.
  - eexists. split; [reflexivity|]. split; [right; eexists|]; reflexivity.
  - destruct (handle_message_world net upd w) as (es & -> & Hr & Hh).
    eexists. split; [reflexivity|]. split.
    + right. eexists. cbn [all_replies]. rewrite all_replies_app, Hr. reflexivity.
    + intros Hn. rewrite Hn in Hh. cbn [http_calls]. rewrite http_calls_app, Hh.
      reflexivity.
Qed.

Lemma process_update_bot (upd : update) (w : world) :
  bot (process_update net upd w) = bot w
  \/ (TEXT_and_not_COMMAND upd = true
      /\ search_table w !! key_of upd <> Some SEARCH
      /\ awaiting_api_key w (key_of upd)
      /\ bot (process_update net upd w)
         = MkBot (api_url (bot w)) (strip (text upd))).
Proof.
  destruct (process_update_cases net upd w)
    as [->|[(body & ->)|[(t & st & body & mk & -> & _)|[(_ & _ & ->)|[(Ht & Hs & Ha & ->)|(_ & _ & _ & ->)]]]]];
    rewrite ?update_state_bot.
  - left; reflexivity.
  - left; reflexivity.
  - left; reflexivity.
  - left. destruct (handle_message_world net upd w) as (es & -> & _). reflexivity.
  - right. repeat split; assumption.
  - left. destruct (handle_message_world net upd w) as (es & -> & _). reflexivity.
Qed.

Lemma process_update_tables_ok (upd : update) (w : world) :
  tables_ok w -> tables_ok (process_update net upd w).
Proof.
  intros [Hs Ha].
  assert (Hdel : forall (m : gmap (Z * Z) Z) k v,
             (forall s st, m !! s = Some st -> st = v) ->
             forall s st, delete k m !! s = Some st -> st = v).
  { intros m k v Hm s st Hl. apply lookup_delete_Some in Hl as [_ Hl].
    exact (Hm _ _ Hl). }
  assert (Hins : forall (m : gmap (Z * Z) Z) k v,
             (forall s st, m !! s = Some st -> st = v) ->
             forall s st, <[k := v]> m !! s = Some st -> st = v).
  { intros m k v Hm s st Hl. apply lookup_insert_Some in Hl as [[_ <-]|[_ Hl]];
      [reflexivity | exact (Hm _ _ Hl)]. }
  destruct (process_update_cases net upd w)
    as [->|[(body & ->)|[(t & st & body & mk & -> & Hst)|[(_ & _ & ->)|[(_ & _ & _ & ->)|(_ & _ & _ & ->)]]]]].
  - split; assumption.
  - split; assumption.
  - destruct Hst as [[-> ->]|[[-> ->]| ->]].
    + split; [apply Hins, Hs | exact Ha].
    + split; [exact Hs | apply Hins, Ha].
    + destruct t; (split; [first [apply Hdel, Hs | exact Hs] | first [apply Hdel, Ha | exact Ha]]).
  - destruct (handle_message_world net upd w) as (es & -> & _).
    split; [apply Hdel, Hs | exact Ha].
  - split; [exact Hs | apply Hdel, Ha].
  - destruct (handle_message_world net upd w) as (es & -> & _). split; assumption.
Qed.
End RouterInvariants.

(** X24.  An update adds events to the trace and removes none; among
    them is at most one message, and it goes to the chat the update came
    from. *)
Theorem at_most_one_reply `{PyRepr} (net : transport) (upd : update) (w : world) :
  exists es,
    events (process_update net upd w) = events w ++ es
    /\ (all_replies es = [] \/ exists body, all_replies es = [(chat_id upd, body)]).
Proof.
  destruct (process_update_events net upd w) as (es & He & Hr & _).
  exists es. split; assumption.
Qed.

(** X25.  While the key is unusable, no update causes an HTTP
    request. *)
Theorem unconfigured_no_traffic `{PyRepr} (net : transport) (upd : update)
    (w : world) :
  not_configured (bot w) = true ->
  http_calls (events (process_update net upd w)) = http_calls (events w).
Proof.
  intros Hn. destruct (process_update_events net upd w) as (es & -> & _ & Hh).
  rewrite http_calls_app, (Hh Hn). apply app_nil_r.
Qed.

Lemma unconfigured_no_traffic_witness :
  not_configured (bot unconfigured) = true
  /\ http_calls (events (process_update (H := repr_plain) (answers 200 (Ok one_finding))
                           (says alice (u "test@example.com")) unconfigured))
     = http_calls (events unconfigured).
Proof.
  split; [reflexivity|].
  apply (unconfigured_no_traffic (H := repr_plain)). reflexivity.
Defined.

(** X26.  The bot object changes in one way only: when an update
    changes it, the update is a text from a session that awaits a key, and
    no query, and the change is that the key becomes the trimmed text. *)
Theorem key_changes_only_by_save `{PyRepr} (net : transport) (upd : update)
    (w : world) :
  bot (process_update net upd w) <> bot w ->
  TEXT_and_not_COMMAND upd = true
  /\ awaiting_api_key w (key_of upd)
  /\ search_table w !! key_of upd <> Some SEARCH
  /\ bot (process_update net upd w) = MkBot (api_url (bot w)) (strip (text upd)).
Proof.
  intros Hch.
  destruct (process_update_bot net upd w) as [Hsame|(Ht & Hs & Ha & Hb)].
  - destruct (Hch Hsame).
  - repeat split; assumption.
Qed.

Lemma key_changes_only_by_save_witness :
  bot (process_update (H := repr_plain) unreachable (says alice (u " k2 ")) setting_key)
  <> bot setting_key
  /\ awaiting_api_key setting_key (key_of (says alice (u " k2 ")))
  /\ bot (process_update (H := repr_plain) unreachable (says alice (u " k2 ")) setting_key)
     = MkBot (api_url (bot setting_key)) (strip (text (says alice (u " k2 ")))).
Proof.
  assert (Hch : bot (process_update (H := repr_plain) unreachable
                       (says alice (u " k2 ")) setting_key)
                <> bot setting_key) by (vm_compute; discriminate).
  split; [exact Hch|].
  destruct (key_changes_only_by_save (H := repr_plain) unreachable
              (says alice (u " k2 ")) setting_key Hch) as (_ & Ha & _ & Hb).
  split; [exact Ha | exact Hb].
Defined.

(** X27.  No sequence of updates changes the URL of the API. *)
Theorem api_url_never_changes `{PyRepr} (net : transport) (upds : list update)
    (w : world) :
  api_url (bot (run_polling net upds w)) = api_url (bot w).
Proof.
  revert w. induction upds as [|upd upds IH]; intros w; [reflexivity|].
  unfold run_polling in *. cbn [fold_left]. rewrite IH.
  destruct (process_update_bot net upd w) as [->|(_ & _ & _ & ->)]; reflexivity.
Qed.

(** X28.  From the start of the process on, whatever updates arrive,
    the search table holds no state but [SEARCH] and the key table none but
    [API_SETUP]. *)
Theorem tables_hold_declared_states `{PyRepr} (net : transport)
    (upds : list update) (e : environ) :
  tables_ok (run_polling net upds (boot e)).
Proof.
  assert (Hgen : forall w, tables_ok w -> tables_ok (run_polling net upds w)).
  { induction upds as [|upd upds IH]; intros w Hw; [exact Hw|].
    unfold run_polling in *. cbn [fold_left].
    apply IH, process_update_tables_ok, Hw. }
  apply Hgen. split; intros s st Hl; cbn in Hl; rewrite lookup_empty in Hl;
    discriminate.
Qed.

(** X29.  An update changes no table entry of another session (another
    chat, or another user of the same chat). *)
Theorem other_sessions_untouched `{PyRepr} (net : transport) (upd : update)
    (w : world) (s : session) :
  s <> key_of upd ->
  search_table (process_update net upd w) !! s = search_table w !! s
  /\ api_table (process_update net upd w) !! s = api_table w !! s.
Proof.
  intros Hs.
  destruct (process_update_cases net upd w)
    as [->|[(body & ->)|[(t & st & body & mk & -> & _)|[(_ & _ & ->)|[(_ & _ & _ & ->)|(_ & _ & _ & ->)]]]]].
  - split; reflexivity.
  - split; reflexivity.
  - destruct (update_state_other t (key_of upd) (Some st)
                (emit (SendMessage (chat_id upd) body None mk) w) s Hs) as [-> ->].
    split; reflexivity.
  - destruct (update_state_other SearchTable (key_of upd) (Some END)
                (fst (handle_message net upd w)) s Hs) as [-> ->].
    destruct (handle_message_world net upd w) as (es & -> & _). split; reflexivity.
  - destruct (update_state_other ApiTable (key_of upd) (Some END)
                (fst (save_api_key upd w)) s Hs) as [-> ->].
    split; reflexivity.
  - destruct (handle_message_world net upd w) as (es & -> & _). split; reflexivity.
Qed.

Lemma other_sessions_untouched_witness :
  alice <> key_of (says bob (u "q"))
  /\ search_table (process_update (H := repr_plain) unreachable (says bob (u "q"))
                     searching) !! alice
     = search_table searching !! alice.
Proof.
  assert (Hne : alice <> key_of (says bob (u "q"))) by discriminate.
  split; [exact Hne|].
  exact (proj1 (other_sessions_untouched (H := repr_plain) unreachable
                  (says bob (u "q")) searching alice Hne)).
Defined.

(** X30.  The key is shared: after one session has saved a usable key,
    the text of any idle session is looked up with that key. *)
Theorem saved_key_serves_every_session `{PyRepr} (net : transport)
    (upd1 upd2 : update) (w : world) :
  TEXT_and_not_COMMAND upd1 = true ->
  search_table w !! key_of upd1 = None ->
  awaiting_api_key w (key_of upd1) ->
  strip (text upd1) <> [] ->
  strip (text upd1) <> u "YOUR_API_KEY_HERE" ->
  TEXT_and_not_COMMAND upd2 = true ->
  idle w (key_of upd2) ->
  http_calls (events (run_polling net [upd1; upd2] w))
  = http_calls (events w)
    ++ [{| req_url := api_url (bot w);
           req_json := JObj [(u "query", JStr (strip (text upd2)))];
           req_headers :=
             [(u "Authorization", u "Bearer " ++ strip (text upd1));
              (u "Content-Type", u "application/json")];
           req_timeout := 30 |}].
Proof.
  intros Ht1 Hs1 Ha1 Hne Hns Ht2 [Hs2 Ha2].
  unfold run_polling. cbn [fold_left].
  pose proof (process_saves_key net upd1 w Ht1 Hs1 Ha1) as Hw1.
  set (w1 := process_update net upd1 w) in *.
  assert (Hi : idle w1 (key_of upd2)).
  { rewrite Hw1. split; cbn; [exact Hs2|].
    apply lookup_delete_None. right. exact Ha2. }
  rewrite (process_free_text net upd2 w1 Ht2 Hi).
  destruct (handle_message_world net upd2 w1) as (es & -> & _ & Hh).
  assert (Hn : not_configured (bot w1) = false).
  { rewrite Hw1. unfold not_configured, str_eqb. cbn [bot api_key].
    rewrite bool_decide_eq_false_2 by exact Hns.
    destruct (strip (text upd1)); [congruence | reflexivity]. }
  rewrite Hn in Hh. cbn [events]. rewrite http_calls_app. cbn [http_calls].
  rewrite http_calls_app, Hh. rewrite Hw1. cbn [events bot].
  rewrite http_calls_app. cbn [http_calls]. rewrite app_nil_r. reflexivity.
Qed.

Lemma saved_key_serves_every_session_witness :
  TEXT_and_not_COMMAND (says alice (u " k2 ")) = true
  /\ search_table setting_key !! key_of (says alice (u " k2 ")) = None
  /\ awaiting_api_key setting_key (key_of (says alice (u " k2 ")))
  /\ strip (text (says alice (u " k2 "))) <> []
  /\ strip (text (says alice (u " k2 "))) <> u "YOUR_API_KEY_HERE"
  /\ TEXT_and_not_COMMAND (says bob (u "q")) = true
  /\ idle setting_key (key_of (says bob (u "q")))
  /\ http_calls (events (run_polling (H := repr_plain) unreachable
                           [says alice (u " k2 "); says bob (u "q")] setting_key))
     = http_calls (events setting_key)
       ++ [{| req_url := api_url (bot setting_key);
              req_json := JObj [(u "query", JStr (strip (text (says bob (u "q")))))];
              req_headers :=
                [(u "Authorization", u "Bearer " ++ strip (text (says alice (u " k2 "))));
                 (u "Content-Type", u "application/json")];
              req_timeout := 30 |}].
Proof.
  assert (H1 : strip (text (says alice (u " k2 "))) <> []) by (vm_compute; discriminate).
  assert (H2 : strip (text (says alice (u " k2 "))) <> u "YOUR_API_KEY_HERE")
    by (vm_compute; discriminate).
  assert (Hi : idle setting_key (key_of (says bob (u "q")))) by (split; reflexivity).
  split; [reflexivity|]. split; [reflexivity|]. split; [reflexivity|].
  split; [exact H1|]. split; [exact H2|]. split; [reflexivity|]. split; [exact Hi|].
  exact (saved_key_serves_every_session (H := repr_plain) unreachable
           (says alice (u " k2 ")) (says bob (u "q")) setting_key
           eq_refl eq_refl eq_refl H1 H2 eq_refl Hi).
Defined.
